(** * A live chat over server-sent events: the two route handlers

    The repository has two Next.js route handlers over one mongoose model:

    - [POST] (send-messages): validates [{ username, content }] and stores
      a [Message];
    - [GET] (stream-messages): opens a [ReadableStream] fed by a MongoDB
      change stream and frames every inserted document as a server-sent
      event;
    - [connectDB] (utils/config/db.js) and [messageSchema]
      (utils/model/message.js), which both handlers use.

    The handlers are embedded as functions over an explicit state: the
    world a handler runs in (mongoose connection, console, collection,
    change feed) and, for each streaming connection, its change stream and
    stream controller.  What the handlers call in the JavaScript runtime
    and in mongoose ([String.prototype.trim], [JSON.stringify],
    [TextEncoder], the [required] validator, the stream controller) is
    embedded in the modules [JS], [Streams] and in [Message_create]. *)

From Stdlib Require Import String Ascii List ZArith Lia Bool DecimalString.
From Stdlib.Strings Require Import Byte.
From Stdlib Require DecimalPos DecimalZ.
Import ListNotations.
Open Scope string_scope.

(** ** JavaScript values, strings and JSON *)

Module JS.

(** A JavaScript string is a sequence of code units.  They are taken here
    in the range 0..255, one [ascii] each, so [string] is the type of
    JavaScript strings whose code units are all below 256. *)

(** JSON primitives and [undefined]: what a field of a parsed request body
    or of a stored document holds.  Numbers are integers. *)
Inductive jsval : Type :=
| JUndefined
| JNull
| JBool (b : bool)
| JNum (n : Z)
| JStr (s : string).

(** An object literal, in property order. *)
Definition jsobject : Type := list (string * jsval).

(** [o.k], [undefined] when the property is absent. *)
Fixpoint get (k : string) (o : jsobject) : jsval :=
  match o with
  | [] => JUndefined
  | (k', v) :: o' => if String.eqb k k' then v else get k o'
  end.

(** ToBoolean. *)
Definition truthy (v : jsval) : bool :=
  match v with
  | JUndefined | JNull => false
  | JBool b => b
  | JNum n => negb (n =? 0)%Z
  | JStr s => negb (s =? EmptyString)
  end.

(** Number.prototype.toString on an integer. *)
Definition Number_toString (n : Z) : string :=
  NilZero.string_of_int (Z.to_int n).

(** WhiteSpace and LineTerminator code units below 256: TAB, LF, VT, FF,
    CR, SP and NBSP. *)
Definition isWhiteSpace (c : ascii) : bool :=
  let n := N_of_ascii c in
  ((9 <=? n) && (n <=? 13) || (n =? 32) || (n =? 160))%N.

Fixpoint trimStart (s : string) : string :=
  match s with
  | EmptyString => EmptyString
  | String c s' => if isWhiteSpace c then trimStart s' else s
  end.

Fixpoint trimEnd (s : string) : string :=
  match s with
  | EmptyString => EmptyString
  | String c s' =>
      match trimEnd s' with
      | EmptyString => if isWhiteSpace c then EmptyString else String c EmptyString
      | t => String c t
      end
  end.

(** String.prototype.trim. *)
Definition trim (s : string) : string := trimEnd (trimStart s).

(** Every code unit of [s] is white space. *)
Fixpoint allWhiteSpace (s : string) : bool :=
  match s with
  | EmptyString => true
  | String c s' => isWhiteSpace c && allWhiteSpace s'
  end.

Definition firstChar (s : string) : option ascii :=
  match s with
  | EmptyString => None
  | String c _ => Some c
  end.

Fixpoint lastChar (s : string) : option ascii :=
  match s with
  | EmptyString => None
  | String c EmptyString => Some c
  | String _ s' => lastChar s'
  end.

Definition notWhiteSpace (o : option ascii) : bool :=
  match o with
  | None => true
  | Some c => negb (isWhiteSpace c)
  end.

(** *** JSON.stringify *)

Definition hexDigit (n : N) : ascii :=
  ascii_of_N (if (n <? 10)%N then 48 + n else 87 + n).

(** The six-character escape [\u00XX] of a control code unit. *)
Definition unicodeEscape (c : ascii) : string :=
  let n := N_of_ascii c in
  "\u00" ++ String (hexDigit (n / 16)) (String (hexDigit (n mod 16)) EmptyString).

Definition backslash : ascii := "092"%char.
Definition dquote : ascii := "034"%char.
Definition LF : ascii := "010"%char.

(** QuoteJSONString, one code unit. *)
Definition escapeChar (c : ascii) : string :=
  let n := N_of_ascii c in
  if (n =? 8)%N then "\b"
  else if (n =? 9)%N then "\t"
  else if (n =? 10)%N then "\n"
  else if (n =? 12)%N then "\f"
  else if (n =? 13)%N then "\r"
  else if (n =? 34)%N then String backslash (String c EmptyString)
  else if (n =? 92)%N then "\\"
  else if (n <? 32)%N then unicodeEscape c
  else String c EmptyString.

Fixpoint escape (s : string) : string :=
  match s with
  | EmptyString => EmptyString
  | String c s' => escapeChar c ++ escape s'
  end.

(** QuoteJSONString. *)
Definition quote (s : string) : string :=
  String dquote (escape s ++ String dquote EmptyString).

(** SerializeJSONProperty on a primitive: [None] is [undefined]. *)
Definition JSON_stringify_value (v : jsval) : option string :=
  match v with
  | JUndefined => None
  | JNull => Some "null"
  | JBool true => Some "true"
  | JBool false => Some "false"
  | JNum n => Some (Number_toString n)
  | JStr s => Some (quote s)
  end.

(** The serialized properties of an object, in property order; a property
    whose value is [undefined] is left out. *)
Fixpoint JSON_properties (o : jsobject) : list string :=
  match o with
  | [] => []
  | (k, v) :: o' =>
      match JSON_stringify_value v with
      | None => JSON_properties o'
      | Some sv => (quote k ++ ":" ++ sv) :: JSON_properties o'
      end
  end.

(** SerializeJSONObject, no indentation. *)
Definition JSON_stringify_object (o : jsobject) : string :=
  "{" ++ String.concat "," (JSON_properties o) ++ "}".

(** [JSON.stringify(x)] where [x] is an object or [undefined]. *)
Definition JSON_stringify (x : option jsobject) : option string :=
  option_map JSON_stringify_object x.

(** A template-literal substitution of [JSON.stringify(x)]: ToString of
    [undefined] is the text [undefined]. *)
Definition template_subst (x : option string) : string :=
  match x with
  | None => "undefined"
  | Some s => s
  end.

(** *** TextEncoder *)

Definition byte_of_N (n : N) : byte := byte_of_ascii (ascii_of_N n).

(** UTF-8 of one code unit below 256: one byte below 128, two above. *)
Definition utf8 (c : ascii) : list byte :=
  let n := N_of_ascii c in
  if (n <? 128)%N then [byte_of_ascii c]
  else [byte_of_N (N.lor 192 (N.shiftr n 6)); byte_of_N (N.lor 128 (N.land n 63))].

(** [new TextEncoder().encode(s)]. *)
Fixpoint TextEncoder_encode (s : string) : list byte :=
  match s with
  | EmptyString => []
  | String c s' => utf8 c ++ TextEncoder_encode s'
  end.

End JS.


Import JS.

(** ** Outcomes and the handler monad *)

(** What a rejected promise or a throwing listener carries. *)
Inductive error : Type :=
| ValidationError (paths : list string)
| MongoError
| TypeError (message : string).

(** How a piece of handler code ends: it returns, it throws (an [await]ed
    promise rejects), or it ends the process with [process.exit]. *)
Inductive outcome (A : Type) : Type :=
| Returned (a : A)
| Threw (e : error)
| Exited (code : Z).

Arguments Returned {A} a.
Arguments Threw {A} e.
Arguments Exited {A} code.

(** Code that runs over a state [S]. *)
Definition M (S A : Type) : Type := S -> outcome A * S.

Definition ret {S A} (a : A) : M S A := fun s => (Returned a, s).

Definition bind {S A B} (c : M S A) (k : A -> M S B) : M S B :=
  fun s =>
    match c s with
    | (Returned a, s') => k a s'
    | (Threw e, s') => (Threw e, s')
    | (Exited n, s') => (Exited n, s')
    end.

Definition throw {S A} (e : error) : M S A := fun s => (Threw e, s).

(** [try { c } catch (error) { h error }]. *)
Definition try_catch {S A} (c : M S A) (h : error -> M S A) : M S A :=
  fun s =>
    match c s with
    | (Threw e, s') => h e s'
    | r => r
    end.

Declare Scope handler_scope.
Delimit Scope handler_scope with handler.
Notation "x <- c ;; k" := (bind c (fun x => k))
  (at level 61, c at next level, right associativity) : handler_scope.
Notation "c ;; k" := (bind c (fun _ => k))
  (at level 61, right associativity) : handler_scope.
Open Scope handler_scope.

(** ** The world of a handler *)

(** A stored message, as MongoDB holds it.  The [ObjectId] is its 24-digit
    hexadecimal text and a [Date] its ISO text, which is what [toJSON]
    makes of them. *)
Record document : Type := {
  _id : string;
  username : string;
  content : string;
  createdAt : string;
  updatedAt : string;
  __v : Z
}.

(** The stored document as an object, fields in stored order. *)
Definition toObject (d : document) : jsobject :=
  [ ("_id", JStr (_id d));
    ("username", JStr (username d));
    ("content", JStr (content d));
    ("createdAt", JStr (createdAt d));
    ("updatedAt", JStr (updatedAt d));
    ("__v", JNum (__v d)) ].

(** A change event of the collection's change feed: the two properties
    the listener reads. *)
Record change : Type := {
  operationType : string;
  fullDocument : option jsobject
}.

(** [mongoose]: the default connection's [readyState] (0 disconnected,
    1 connected, 2 connecting, 3 disconnecting), the [strictQuery] option
    and the URIs [mongoose.connect] was called with. *)
Record mongoose_t : Type := {
  readyState : Z;
  strictQuery : option bool;
  connects : list string
}.

Record world : Type := {
  mongoose : mongoose_t;
  console : list string;
  collection : list document;
  feed : list change
}.

(** What the outside decides during one handler call: the environment
    variable, whether the server accepts the connection and the insert,
    the identifier the driver generates and the clock. *)
Record env : Type := {
  MONGO_URI : string;
  connect_ok : bool;
  insert_ok : bool;
  ObjectId : string;
  Date_now : string
}.

Definition set_mongoose (m : mongoose_t) (w : world) : world :=
  {| mongoose := m; console := console w;
     collection := collection w; feed := feed w |}.

Definition console_log (line : string) : M world unit :=
  fun w => (Returned tt,
            {| mongoose := mongoose w; console := console w ++ [line];
               collection := collection w; feed := feed w |}).

Definition console_error : string -> M world unit := console_log.

Definition process_exit {A} (code : Z) : M world A :=
  fun w => (Exited code, w).

(** ** utils/config/db.js *)

(** [mongoose.set('strictQuery', true)]. *)
Definition mongoose_set_strictQuery (b : bool) : M world unit :=
  fun w => (Returned tt,
            set_mongoose {| readyState := readyState (mongoose w);
                            strictQuery := Some b;
                            connects := connects (mongoose w) |} w).

(** [mongoose.connect(uri)] up to its first suspension: the call is
    recorded and the connection is connecting. *)
Definition mongoose_connect_call (uri : string) : M world unit :=
  fun w => (Returned tt,
            set_mongoose {| readyState := 2;
                            strictQuery := strictQuery (mongoose w);
                            connects := connects (mongoose w) ++ [uri] |} w).

(** The promise of [mongoose.connect] settles. *)
Definition mongoose_connect_settle (e : env) : M world unit :=
  fun w =>
    if connect_ok e then
      (Returned tt,
       set_mongoose {| readyState := 1;
                       strictQuery := strictQuery (mongoose w);
                       connects := connects (mongoose w) |} w)
    else
      (Threw MongoError,
       set_mongoose {| readyState := 0;
                       strictQuery := strictQuery (mongoose w);
                       connects := connects (mongoose w) |} w).

Definition mongoose_connect (e : env) (uri : string) : M world unit :=
  mongoose_connect_call uri ;; mongoose_connect_settle e.

(** [await connectDB()]. *)
Definition connectDB (e : env) : M world unit :=
  try_catch
    (fun w =>
       if (1 <=? readyState (mongoose w))%Z then
         console_log "Already connected to the database." w
       else
         (mongoose_set_strictQuery true ;;
          mongoose_connect e (MONGO_URI e) ;;
          console_log "Database connected") w)
    (fun _ =>
       console_error "Error connecting to the database:" ;;
       process_exit 1).

(** [connectDB()] without [await]: the body runs up to its first [await]
    and the caller goes on; the promise is dropped, and the rest of the
    body runs when the connection settles, after the handler returned. *)
Definition connectDB_unawaited (e : env) : M world unit :=
  fun w =>
    if (1 <=? readyState (mongoose w))%Z then
      console_log "Already connected to the database." w
    else
      (mongoose_set_strictQuery true ;;
       mongoose_connect_call (MONGO_URI e)) w.

(** ** utils/model/message.js *)

(** The options a [String] path of the schema carries. *)
Record SchemaString : Type := {
  required : bool;
  trim_option : bool
}.

Record Schema : Type := {
  paths : list (string * SchemaString);
  timestamps : bool
}.

Definition messageSchema : Schema :=
  {| paths := [ ("username", {| required := true; trim_option := true |});
                ("content", {| required := true; trim_option := true |}) ];
     timestamps := true |}.

(** mongoose's cast to [String]: [null] and [undefined] stay as they are
    ([None]); a boolean or a number is its [toString()]. *)
Definition castString (v : jsval) : option string :=
  match v with
  | JUndefined | JNull => None
  | JBool true => Some "true"
  | JBool false => Some "false"
  | JNum n => Some (Number_toString n)
  | JStr s => Some s
  end.

(** The setters of a path, then the cast: with [trim: true] the value is
    cast and trimmed. *)
Definition applySetters (o : SchemaString) (v : jsval) : option string :=
  if trim_option o then option_map trim (castString v) else castString v.

(** The [required] validator of a [String] path: a string of positive
    length passes. *)
Definition checkRequired (o : SchemaString) (v : option string) : bool :=
  if required o then
    match v with
    | Some s => negb (s =? EmptyString)
    | None => false
    end
  else true.

Definition path_options (k : string) (sch : Schema) : SchemaString :=
  match find (fun p => String.eqb k (fst p)) (paths sch) with
  | Some p => snd p
  | None => {| required := false; trim_option := false |}
  end.

(** The value a path of the new document gets from [obj]. *)
Definition path_value (sch : Schema) (k : string) (obj : jsobject) : option string :=
  applySetters (path_options k sch) (get k obj).

(** The paths of [sch] whose validator rejects the document built from
    [obj], in schema order. *)
Definition invalid_paths (sch : Schema) (obj : jsobject) : list string :=
  map fst
    (filter (fun p => negb (checkRequired (snd p) (applySetters (snd p) (get (fst p) obj))))
            (paths sch)).

(** [collection.insertOne(doc)]: the document is stored and the change
    feed gets its insert event. *)
Definition insertOne (e : env) (d : document) : M world unit :=
  fun w =>
    if insert_ok e then
      (Returned tt,
       {| mongoose := mongoose w; console := console w;
          collection := collection w ++ [d];
          feed := feed w ++ [ {| operationType := "insert";
                                 fullDocument := Some (toObject d) |} ] |})
    else (Threw MongoError, w).

Definition string_or_empty (v : option string) : string :=
  match v with
  | Some s => s
  | None => EmptyString
  end.

(** [await Message.create(obj)]: build the document (setters and casts),
    validate it, stamp it ([timestamps: true]) and insert it. *)
Definition Message_create (e : env) (obj : jsobject) : M world document :=
  match invalid_paths messageSchema obj with
  | [] =>
      let d := {| _id := ObjectId e;
                  username := string_or_empty (path_value messageSchema "username" obj);
                  content := string_or_empty (path_value messageSchema "content" obj);
                  createdAt := Date_now e;
                  updatedAt := Date_now e;
                  __v := 0 |} in
      insertOne e d ;; ret d
  | bad => throw (ValidationError bad)
  end.

(** ** api/send-messages/route.js *)

(** [NextResponse.json(body, { status })]. *)
Record json_response : Type := {
  json_status : Z;
  json_body : jsobject
}.

Definition NextResponse_json (body : jsobject) (status : Z) : json_response :=
  {| json_status := status; json_body := body |}.

(** [POST(req)], where [body] is what [await req.json()] gives. *)
Definition POST (e : env) (body : jsobject) : M world json_response :=
  connectDB e ;;
  let username := get "username" body in
  let content := get "content" body in
  if negb (truthy username) || negb (truthy content) then
    ret (NextResponse_json [("error", JStr "Invalid input")] 400)
  else
    result <- Message_create e [("username", username); ("content", content)] ;;
    ret (NextResponse_json
           [("success", JBool true); ("messageId", JStr (_id result))] 201).

(** ** Streams and change streams *)

Module Streams.

(** A [ReadableStreamDefaultController]: the chunks enqueued so far and
    whether [close()] was called. *)
Record controller : Type := {
  queue : list (list byte);
  closeRequested : bool
}.

(** [controller.enqueue(chunk)]: a [TypeError] once the stream is closed. *)
Definition enqueue (chunk : list byte) : M controller unit :=
  fun c =>
    if closeRequested c then
      (Threw (TypeError "Invalid state: Controller is already closed"), c)
    else
      (Returned tt, {| queue := queue c ++ [chunk]; closeRequested := closeRequested c |}).

(** [controller.close()]: a [TypeError] when already closed. *)
Definition close : M controller unit :=
  fun c =>
    if closeRequested c then
      (Threw (TypeError "Invalid state: Controller is already closed"), c)
    else
      (Returned tt, {| queue := queue c; closeRequested := true |}).

(** A driver [ChangeStream]: open or closed. *)
Record ChangeStream : Type := {
  closed : bool
}.

(** [changeStream.close()]. *)
Definition ChangeStream_close : M ChangeStream unit :=
  fun _ => (Returned tt, {| closed := true |}).

End Streams.

(** ** api/stream-messages/route.js *)

(** What [start(controller)] sets up for one request: the change stream
    from [Message.watch()] and the stream's controller. *)
Record connection : Type := {
  changeStream : Streams.ChangeStream;
  controller : Streams.controller
}.

Definition on_controller {A} (c : M Streams.controller A) : M connection A :=
  fun s =>
    let (r, c') := c (controller s) in
    (r, {| changeStream := changeStream s; controller := c' |}).

Definition on_changeStream {A} (c : M Streams.ChangeStream A) : M connection A :=
  fun s =>
    let (r, cs') := c (changeStream s) in
    (r, {| changeStream := cs'; controller := controller s |}).

(** The text of one event: [`data: ${JSON.stringify(newMessage)}\n\n`]. *)
Definition messageString (newMessage : option jsobject) : string :=
  "data: " ++ template_subst (JSON_stringify newMessage)
           ++ String LF (String LF EmptyString).

(** The listener of the change stream's [change] event. *)
Definition change_listener (c : change) : M connection unit :=
  if operationType c =? "insert" then
    let newMessage := fullDocument c in
    on_controller (Streams.enqueue (TextEncoder_encode (messageString newMessage)))
  else
    ret tt.

(** The listener of the request signal's [abort] event. *)
Definition abort_listener : M connection unit :=
  on_changeStream Streams.ChangeStream_close ;;
  on_controller Streams.close.

(** [start(controller)]: [Message.watch()] opens the change stream; both
    listeners are registered. *)
Definition start : connection :=
  {| changeStream := {| Streams.closed := false |};
     controller := {| Streams.queue := []; Streams.closeRequested := false |} |}.

(** [new NextResponse(stream, { headers })]. *)
Record stream_response : Type := {
  status : Z;
  headers : list (string * string);
  body : connection
}.

(** [GET(req)]. *)
Definition GET (e : env) : M world stream_response :=
  connectDB_unawaited e ;;
  let stream := start in
  ret {| status := 200;
         headers := [ ("Content-Type", "text/event-stream");
                      ("Cache-Control", "no-cache");
                      ("Connection", "keep-alive") ];
         body := stream |}.

(** What happens to a connection after [GET] returned: its change stream
    emits a change event, or the request's signal fires. *)
Inductive event : Type :=
| Change (c : change)
| Abort.

Definition handle (ev : event) : M connection unit :=
  match ev with
  | Change c => change_listener c
  | Abort => abort_listener
  end.

(** The connection after one event; what a listener throws is not caught
    by the handler and the connection stays as the listener left it. *)
Definition step (s : connection) (ev : event) : connection :=
  snd (handle ev s).

(** The connection after a sequence of events. *)
Definition run (evs : list event) (s : connection) : connection :=
  fold_left step evs s.

(** The chunks a connection has enqueued to its client. *)
Definition sent (s : connection) : list (list byte) :=
  Streams.queue (controller s).

(** ** Vocabulary of the statements *)

(** The store can be reached during the call: mongoose is connected (or
    connecting) already, or the server accepts the connection. *)
Definition db_available (e : env) (w : world) : Prop :=
  (1 <= readyState (mongoose w))%Z \/ connect_ok e = true.

Definition logged (line : string) (w : world) : world :=
  snd (console_log line w).

(** [connectDB] called once for each environment of [es], in turn. *)
Fixpoint connectDB_times (es : list env) : M world unit :=
  match es with
  | [] => ret tt
  | e :: es' => connectDB e ;; connectDB_times es'
  end.

(** A field of the submission is missing or the empty string. *)
Definition missing_or_empty (v : jsval) : Prop :=
  v = JUndefined \/ v = JStr EmptyString.

(** The document [Message.create] makes of the strings [u] and [c]. *)
Definition new_message (e : env) (u c : string) : document :=
  {| _id := ObjectId e;
     username := trim u;
     content := trim c;
     createdAt := Date_now e;
     updatedAt := Date_now e;
     __v := 0 |}.

(** The change event the feed carries for the insertion of [d]. *)
Definition insert_event (d : document) : change :=
  {| operationType := "insert"; fullDocument := Some (toObject d) |}.

(** A process that has not connected yet, with an empty collection. *)
Definition fresh_world : world :=
  {| mongoose := {| readyState := 0; strictQuery := None; connects := [] |};
     console := [];
     collection := [];
     feed := [] |}.

(** A process whose mongoose connection is established. *)
Definition connected_world : world :=
  {| mongoose := {| readyState := 1; strictQuery := Some true;
                    connects := ["mongodb://localhost/chat"] |};
     console := ["Database connected"];
     collection := [];
     feed := [] |}.

(** A reachable store, a generated identifier and a clock reading. *)
Definition sample_env : env :=
  {| MONGO_URI := "mongodb://localhost/chat";
     connect_ok := true;
     insert_ok := true;
     ObjectId := "65f0c0ffee0123456789abcd";
     Date_now := "2024-03-12T10:00:00.000Z" |}.

(** The submission [{ username: "alice", content: "hello" }]. *)
Definition alice_hello : jsobject :=
  [("username", JStr "alice"); ("content", JStr "hello")].

(** The submission [{ username: "   ", content: "hi" }]. *)
Definition blank_username : jsobject :=
  [("username", JStr "   "); ("content", JStr "hi")].

(** The submission [{ username: "", content: "hi" }] (the name is the
    empty string). *)
Definition empty_username : jsobject :=
  [("username", JStr EmptyString); ("content", JStr "hi")].

(** [t] is [s] with its leading and trailing white space removed: [s] is
    [t] between two runs of white space, and [t] neither begins nor ends
    with white space. *)
Definition trimmed_of (s t : string) : Prop :=
  (exists pre post,
      s = pre ++ t ++ post /\
      allWhiteSpace pre = true /\ allWhiteSpace post = true) /\
  notWhiteSpace (firstChar t) = true /\
  notWhiteSpace (lastChar t) = true.

Definition two_newlines : string := String LF (String LF EmptyString).

(** The frame of an object with the four fields [id], [username],
    [content] and [createdAt], in this order. *)
Definition four_field_frame (id username content createdAt : jsval) : string :=
  "data: "
  ++ JSON_stringify_object
       [("id", id); ("username", username);
        ("content", content); ("createdAt", createdAt)]
  ++ two_newlines.

(** The frame of a stored message, written out: six fields. *)
Definition document_frame (d : document) : string :=
  "data: {"
  ++ quote "_id" ++ ":" ++ quote (_id d) ++ ","
  ++ quote "username" ++ ":" ++ quote (username d) ++ ","
  ++ quote "content" ++ ":" ++ quote (content d) ++ ","
  ++ quote "createdAt" ++ ":" ++ quote (createdAt d) ++ ","
  ++ quote "updatedAt" ++ ":" ++ quote (updatedAt d) ++ ","
  ++ quote "__v" ++ ":" ++ Number_toString (__v d)
  ++ "}" ++ two_newlines.

(** The insert event of the message stored for [alice_hello]. *)
Definition alice_insert : change :=
  insert_event (new_message sample_env "alice" "hello").

(** An update event; it carries no full document. *)
Definition sample_update : change :=
  {| operationType := "update"; fullDocument := None |}.

(** ** The module bodies of db.js and message.js *)

(** [process.env.X]: a string, or [undefined] when the variable is not
    set. *)
Definition process_env (v : option string) : jsval :=
  match v with
  | Some s => JStr s
  | None => JUndefined
  end.

(** The body of utils/config/db.js, run once when the module is loaded:
    without a [MONGO_URI] it throws an [Error] ([inl], with its message)
    and exports nothing; otherwise [connectDB] is exported with the URI
    it will use ([inr]). *)
Definition db_module (MONGO_URI_variable : option string) : string + string :=
  let MONGO_URI := process_env MONGO_URI_variable in
  if negb (truthy MONGO_URI) then
    inl "Please define the MONGO_URI environment variable inside .env.local"
  else
    inr (match MONGO_URI with JStr uri => uri | _ => EmptyString end).

(** [mongoose.models]: the models compiled so far, each with its schema,
    by name. *)
Definition models_t : Type := list (string * Schema).

Fixpoint models_get (name : string) (ms : models_t) : option Schema :=
  match ms with
  | [] => None
  | (n, sch) :: ms' => if String.eqb name n then Some sch else models_get name ms'
  end.

(** [mongoose.model(name, schema)] with a schema object made for the
    call: the model is compiled and registered, or, when a model of that
    name exists already, mongoose throws [OverwriteModelError] ([None]). *)
Definition mongoose_model (name : string) (sch : Schema) (ms : models_t)
  : option (Schema * models_t) :=
  match models_get name ms with
  | Some _ => None
  | None => Some (sch, (ms ++ [(name, sch)])%list)
  end.

(** The body of utils/model/message.js:
    [mongoose.models.Message || mongoose.model("Message", messageSchema)]. *)
Definition Message_module (ms : models_t) : option (Schema * models_t) :=
  match models_get "Message" ms with
  | Some m => Some (m, ms)
  | None => mongoose_model "Message" messageSchema ms
  end.

(** ** Reading frames back *)

(** What a client of the stream does with a chunk, as far as it takes to
    recover the text: UTF-8 decoding and the reading of a JSON string
    literal.  They are used to show that the encodings lose nothing. *)
Module Decode.

Definition push (c : ascii) (r : option string) : option string :=
  option_map (String c) r.

Definition N_of_byte (b : byte) : N := N_of_ascii (ascii_of_byte b).

(** UTF-8 of code units below 256, read back. *)
Fixpoint utf8_decode (bs : list byte) : option string :=
  match bs with
  | [] => Some EmptyString
  | b :: bs1 =>
      let n := N_of_byte b in
      if (n <? 128)%N then push (ascii_of_byte b) (utf8_decode bs1)
      else if (n =? 194)%N || (n =? 195)%N then
        match bs1 with
        | [] => None
        | b2 :: bs2 =>
            push (ascii_of_N (N.lor (N.shiftl (N.land n 3) 6)
                                    (N.land (N_of_byte b2) 63)))
                 (utf8_decode bs2)
        end
      else None
  end.

Definition hexValue (c : ascii) : N :=
  let n := N_of_ascii c in
  if (n <? 58)%N then n - 48 else n - 87.

Definition push_fst (c : ascii) (r : option (string * string))
  : option (string * string) :=
  option_map (fun p => (String c (fst p), snd p)) r.

(** The characters of a JSON string literal after its opening quote, up
    to the closing quote, unescaped; and what follows the literal. *)
Fixpoint unquote_body (t : string) : option (string * string) :=
  match t with
  | EmptyString => None
  | String c t1 =>
      if Ascii.eqb c dquote then Some (EmptyString, t1)
      else if Ascii.eqb c backslash then
        match t1 with
        | EmptyString => None
        | String e t2 =>
            if Ascii.eqb e "b" then push_fst (ascii_of_N 8) (unquote_body t2)
            else if Ascii.eqb e "t" then push_fst (ascii_of_N 9) (unquote_body t2)
            else if Ascii.eqb e "n" then push_fst (ascii_of_N 10) (unquote_body t2)
            else if Ascii.eqb e "f" then push_fst (ascii_of_N 12) (unquote_body t2)
            else if Ascii.eqb e "r" then push_fst (ascii_of_N 13) (unquote_body t2)
            else if Ascii.eqb e "u" then
              match t2 with
              | String _ (String _ (String h1 (String h2 t3))) =>
                  push_fst (ascii_of_N (16 * hexValue h1 + hexValue h2))
                           (unquote_body t3)
              | _ => None
              end
            else push_fst e (unquote_body t2)
        end
      else push_fst c (unquote_body t1)
  end.

(** A JSON string literal at the head of [t], read back. *)
Definition unquote (t : string) : option (string * string) :=
  match t with
  | EmptyString => None
  | String c t1 => if Ascii.eqb c dquote then unquote_body t1 else None
  end.

End Decode.

(** ** More vocabulary *)

(** Every code unit of [s] satisfies [p]. *)
Fixpoint string_forall (p : ascii -> bool) (s : string) : bool :=
  match s with
  | EmptyString => true
  | String c s' => p c && string_forall p s'
  end.

(** A code unit that is no control character (at least 32). *)
Definition not_control (c : ascii) : bool := (32 <=? N_of_ascii c)%N.

(** The chunk the listener enqueues for the insert event [c]. *)
Definition frame_of (c : change) : list byte :=
  TextEncoder_encode (messageString (fullDocument c)).

(** The chunks a sequence of events is to put on an open stream: one per
    insert event, in order, up to the first abort. *)
Fixpoint delivered (evs : list event) : list (list byte) :=
  match evs with
  | [] => []
  | Abort :: _ => []
  | Change c :: evs' =>
      if operationType c =? "insert" then frame_of c :: delivered evs'
      else delivered evs'
  end.

(** Like [sample_env], with a server that refuses the connection. *)
Definition unreachable_env : env :=
  {| MONGO_URI := "mongodb://localhost/chat";
     connect_ok := false;
     insert_ok := true;
     ObjectId := "65f0c0ffee0123456789abcd";
     Date_now := "2024-03-12T10:00:00.000Z" |}.

(** Like [sample_env], with a server that rejects the insert. *)
Definition failing_insert_env : env :=
  {| MONGO_URI := "mongodb://localhost/chat";
     connect_ok := true;
     insert_ok := false;
     ObjectId := "65f0c0ffee0123456789abcd";
     Date_now := "2024-03-12T10:00:00.000Z" |}.

(** The submission [{ username: null, content: "hi" }]. *)
Definition null_username : jsobject :=
  [("username", JNull); ("content", JStr "hi")].

(** The submission [{ username: "bob", content: "  " }]. *)
Definition blank_content : jsobject :=
  [("username", JStr "bob"); ("content", JStr "  ")].

(** The submission [{ username: " bob ", content: "hi there" }]. *)
Definition padded_bob : jsobject :=
  [("username", JStr " bob "); ("content", JStr "hi there")].

(** A second stored message and its insert event. *)
Definition bob_message : document :=
  {| _id := "65f0c0ffee0123456789abce";
     username := "bob";
     content := "hi there";
     createdAt := "2024-03-12T10:00:05.000Z";
     updatedAt := "2024-03-12T10:00:05.000Z";
     __v := 0 |}.

Definition bob_insert : change := insert_event bob_message.

(** A byte that is neither LF nor CR: it ends no line of an event
    stream. *)
Definition line_byte (b : byte) : bool :=
  negb (Byte.eqb b "010"%byte) && negb (Byte.eqb b "013"%byte).

(** The environment of a later call: another identifier and clock
    reading; the server would now refuse a new connection. *)
Definition later_env : env :=
  {| MONGO_URI := "mongodb://localhost/chat";
     connect_ok := false;
     insert_ok := true;
     ObjectId := "65f0c0ffee0123456789abce";
     Date_now := "2024-03-12T10:00:05.000Z" |}.

(** The submission [{ username: 42, content: "hi" }]. *)
Definition numeric_username : jsobject :=
  [("username", JNum 42); ("content", JStr "hi")].

(** Every URI [mongoose.connect] was called with is a non-empty string. *)
Definition connects_nonempty (w : world) : Prop :=
  Forall (fun uri => uri <> EmptyString) (connects (mongoose w)).

(** The JSON text the listener puts in a frame. *)
Definition frame_payload (newMessage : option jsobject) : string :=
  template_subst (JSON_stringify newMessage).

(** * Properties *)

(** ** [String.prototype.trim] *)

Section Trim.

Lemma trimStart_split (s : string) :
  exists pre, s = pre ++ trimStart s /\ allWhiteSpace pre = true.
Proof.
  induction s as [|c s IH]; simpl.
  - exists EmptyString. split; reflexivity.
  - destruct (isWhiteSpace c) eqn:Hc.
    + destruct IH as [pre [Heq Hws]].
      exists (String c pre). simpl. rewrite Hc, Hws. split; [|reflexivity].
      f_equal. exact Heq.
    + exists EmptyString. split; reflexivity.
Qed.

Lemma trimStart_first (s : string) :
  notWhiteSpace (firstChar (trimStart s)) = true.
Proof.
  induction s as [|c s IH]; simpl; [reflexivity|].
  destruct (isWhiteSpace c) eqn:Hc; [exact IH|].
  simpl. rewrite Hc. reflexivity.
Qed.

Lemma trimEnd_split (s : string) :
  exists post, s = trimEnd s ++ post /\ allWhiteSpace post = true.
Proof.
  induction s as [|c s IH]; simpl.
  - exists EmptyString. split; reflexivity.
  - destruct IH as [post [Heq Hws]].
    destruct (trimEnd s) as [|a t] eqn:Ht.
    + simpl in Heq. subst post.
      destruct (isWhiteSpace c) eqn:Hc.
      * exists (String c s). simpl. rewrite Hc, Hws. split; reflexivity.
      * exists s. split; [reflexivity | exact Hws].
    + exists post. split; [|exact Hws].
      simpl. f_equal. exact Heq.
Qed.

Lemma trimEnd_last (s : string) :
  notWhiteSpace (lastChar (trimEnd s)) = true.
Proof.
  induction s as [|c s IH]; simpl; [reflexivity|].
  destruct (trimEnd s) as [|a t] eqn:Ht.
  - destruct (isWhiteSpace c) eqn:Hc; simpl; [reflexivity|].
    rewrite Hc. reflexivity.
  - exact IH.
Qed.

Lemma trimEnd_first (s : string) :
  notWhiteSpace (firstChar s) = true ->
  notWhiteSpace (firstChar (trimEnd s)) = true.
Proof.
  destruct s as [|c s]; simpl; [reflexivity|].
  intros Hc. destruct (trimEnd s) as [|a t].
  - destruct (isWhiteSpace c) eqn:E; [discriminate Hc|].
    simpl. rewrite E. reflexivity.
  - exact Hc.
Qed.

(** [trim s] is [s] with its leading and trailing white space removed. *)
Lemma trim_spec (s : string) : trimmed_of s (trim s).
Proof.
  unfold trimmed_of, trim. split; [|split].
  - destruct (trimStart_split s) as [pre [Hs Hpre]].
    destruct (trimEnd_split (trimStart s)) as [post [Ht Hpost]].
    exists pre, post. split; [|split; assumption].
    rewrite <- Ht. exact Hs.
  - apply trimEnd_first. apply trimStart_first.
  - apply trimEnd_last.
Qed.

End Trim.

(** ** [connectDB] *)

Lemma connectDB_connected (e : env) (w : world) :
  (1 <= readyState (mongoose w))%Z ->
  connectDB e w = (Returned tt, logged "Already connected to the database." w).
Proof.
  intros H. unfold connectDB, try_catch.
  apply Z.leb_le in H. rewrite H. reflexivity.
Qed.

(** With the store available [connectDB] returns; it never touches the
    collection or the feed, and leaves mongoose connected. *)
Lemma connectDB_available (e : env) (w : world) :
  db_available e w ->
  exists w', connectDB e w = (Returned tt, w') /\
             collection w' = collection w /\ feed w' = feed w /\
             (1 <= readyState (mongoose w'))%Z.
Proof.
  intros Hav. destruct (Z.leb_spec 1 (readyState (mongoose w))) as [Hr|Hr].
  - rewrite (connectDB_connected e w Hr). eexists. repeat split. exact Hr.
  - destruct Hav as [Hr'|Hok]; [lia|].
    unfold connectDB, try_catch.
    destruct (Z.leb_spec 1 (readyState (mongoose w))) as [Hr'|_]; [lia|].
    unfold bind, mongoose_connect, bind, mongoose_set_strictQuery,
      mongoose_connect_call, mongoose_connect_settle. simpl.
    rewrite Hok. simpl. eexists. repeat split. simpl. lia.
Qed.

(** Whatever its outcome, [connectDB] stores nothing and dispatches
    nothing. *)
Lemma connectDB_store (e : env) (w : world) :
  collection (snd (connectDB e w)) = collection w /\
  feed (snd (connectDB e w)) = feed w.
Proof.
  unfold connectDB, try_catch.
  destruct (1 <=? readyState (mongoose w))%Z; simpl; [split; reflexivity|].
  unfold bind, mongoose_connect, bind, mongoose_set_strictQuery,
    mongoose_connect_call, mongoose_connect_settle. simpl.
  destruct (connect_ok e); simpl; split; reflexivity.
Qed.

(** Once connected, any number of calls return and change neither
    mongoose nor the store. *)
Lemma connectDB_times_connected (es : list env) :
  forall w : world,
    (1 <= readyState (mongoose w))%Z ->
    fst (connectDB_times es w) = Returned tt /\
    mongoose (snd (connectDB_times es w)) = mongoose w /\
    collection (snd (connectDB_times es w)) = collection w /\
    feed (snd (connectDB_times es w)) = feed w.
Proof.
  induction es as [|e es IH]; intros w Hw.
  - repeat split.
  - simpl. unfold bind. rewrite (connectDB_connected e w Hw).
    destruct (IH (logged "Already connected to the database." w) Hw)
      as (Hr & Hm & Hc & Hf).
    rewrite Hr, Hm, Hc, Hf. repeat split.
Qed.

(** A call that returns leaves mongoose connected, so the next call finds
    it so. *)
Lemma connectDB_returns_connected (e : env) (w w' : world) :
  connectDB e w = (Returned tt, w') -> (1 <= readyState (mongoose w'))%Z.
Proof.
  unfold connectDB, try_catch.
  destruct (Z.leb_spec 1 (readyState (mongoose w))) as [Hr|Hr].
  - intros H. inversion H; subst. exact Hr.
  - unfold bind, mongoose_connect, bind, mongoose_set_strictQuery,
      mongoose_connect_call, mongoose_connect_settle, console_error,
      process_exit, console_log. simpl.
    destruct (connect_ok e); simpl; intros H; inversion H; subst; simpl; lia.
Qed.

(** C10. Called while the connection's [readyState] is at least 1,
    [connectDB] returns at once: it logs that the database is already
    connected, [mongoose.connect] is not called and the mongoose state
    (ready state, options, connect calls) is what it was.  So is it after
    any number of further calls: repeated calls are idempotent. *)
Theorem connectDB_already_connected (e : env) (w : world)
    (Hready : (readyState (mongoose w) >= 1)%Z) :
  connectDB e w = (Returned tt, logged "Already connected to the database." w) /\
  mongoose (snd (connectDB e w)) = mongoose w /\
  connects (mongoose (snd (connectDB e w))) = connects (mongoose w) /\
  forall es : list env,
    fst (connectDB_times es w) = Returned tt /\
    mongoose (snd (connectDB_times es w)) = mongoose w /\
    collection (snd (connectDB_times es w)) = collection w /\
    feed (snd (connectDB_times es w)) = feed w.
Proof.
  assert (H1 : (1 <= readyState (mongoose w))%Z) by lia.
  rewrite (connectDB_connected e w H1). simpl.
  repeat split; apply connectDB_times_connected; exact H1.
Qed.

Lemma connectDB_already_connected_witness :
  (readyState (mongoose connected_world) >= 1)%Z /\
  connectDB sample_env connected_world =
    (Returned tt, logged "Already connected to the database." connected_world).
Proof.
  split; [simpl; lia|].
  apply (connectDB_already_connected sample_env connected_world). simpl. lia.
Defined.

(** ** [POST] *)

(** What [Message.create] does with the strings [u] and [c], by cases on
    their trimmed values. *)
Lemma Message_create_strings (e : env) (u c : string) (w : world) :
  Message_create e [("username", JStr u); ("content", JStr c)] w =
    match (trim u =? EmptyString), (trim c =? EmptyString) with
    | false, false => (insertOne e (new_message e u c) ;; ret (new_message e u c)) w
    | true, false => (Threw (ValidationError ["username"]), w)
    | false, true => (Threw (ValidationError ["content"]), w)
    | true, true => (Threw (ValidationError ["username"; "content"]), w)
    end.
Proof.
  unfold Message_create, invalid_paths, path_value, new_message.
  cbn -[trim].
  destruct (trim u), (trim c); reflexivity.
Qed.

(** What [Message.create] does with two strings that are not empty once
    trimmed. *)
Lemma Message_create_valid (e : env) (u c : string) (w : world) :
  trim u <> EmptyString -> trim c <> EmptyString ->
  Message_create e [("username", JStr u); ("content", JStr c)] w =
    (insertOne e (new_message e u c) ;; ret (new_message e u c)) w.
Proof.
  intros Hu Hc. rewrite Message_create_strings.
  apply String.eqb_neq in Hu. apply String.eqb_neq in Hc.
  rewrite Hu, Hc. reflexivity.
Qed.

(** C4. When the store is available and [username] or [content] is
    missing or the empty string, [POST] answers 400 with
    [{ error: "Invalid input" }]; no message is stored and the change feed
    gets no event. *)
Theorem POST_missing_or_empty (e : env) (body : jsobject) (w : world)
    (Hdb : db_available e w)
    (Hbad : missing_or_empty (get "username" body) \/
            missing_or_empty (get "content" body)) :
  exists w',
    POST e body w =
      (Returned (NextResponse_json [("error", JStr "Invalid input")] 400), w') /\
    collection w' = collection w /\
    feed w' = feed w.
Proof.
  destruct (connectDB_available e w Hdb) as (w1 & Hc & Hcol & Hfeed & _).
  exists w1. unfold POST, bind. rewrite Hc.
  assert (Hg : negb (truthy (get "username" body)) ||
               negb (truthy (get "content" body)) = true).
  { destruct Hbad as [[H|H]|[H|H]]; rewrite H; simpl;
      try reflexivity; apply orb_true_r. }
  rewrite Hg. repeat split; assumption.
Qed.

Lemma POST_missing_or_empty_witness :
  db_available sample_env fresh_world /\
  exists w',
    POST sample_env empty_username fresh_world =
      (Returned (NextResponse_json [("error", JStr "Invalid input")] 400), w') /\
    collection w' = collection fresh_world /\
    feed w' = feed fresh_world.
Proof.
  assert (Hdb : db_available sample_env fresh_world) by (right; reflexivity).
  split; [exact Hdb|].
  apply (POST_missing_or_empty sample_env empty_username fresh_world Hdb).
  left. right. reflexivity.
Defined.

(** C3. When the store is available and accepts the insert, and
    [username] and [content] are strings that are not empty once trimmed,
    [POST] stores one message made of them (each trimmed, as the schema
    has it) under the generated identifier, the feed gets its insert
    event, and the answer is 201 with [{ success: true, messageId }] where
    [messageId] is the identifier of the stored message. *)
Theorem POST_valid_persists (e : env) (body : jsobject) (w : world) (u c : string)
    (Hdb : db_available e w)
    (Hins : insert_ok e = true)
    (Hu : get "username" body = JStr u)
    (Hc : get "content" body = JStr c)
    (Htu : trim u <> EmptyString)
    (Htc : trim c <> EmptyString) :
  exists (w' : world) (d : document),
    POST e body w =
      (Returned (NextResponse_json
                   [("success", JBool true); ("messageId", JStr (_id d))] 201), w') /\
    collection w' = (collection w ++ [d])%list /\
    feed w' = (feed w ++ [insert_event d])%list /\
    d = new_message e u c.
Proof.
  destruct (connectDB_available e w Hdb) as (w1 & Hcon & Hcol & Hfeed & _).
  unfold POST, bind. rewrite Hcon, Hu, Hc.
  assert (Hnu : (u =? EmptyString) = false).
  { apply String.eqb_neq. intros ->. apply Htu. reflexivity. }
  assert (Hnc : (c =? EmptyString) = false).
  { apply String.eqb_neq. intros ->. apply Htc. reflexivity. }
  cbv zeta. unfold truthy. rewrite Hnu, Hnc. cbn [negb orb].
  rewrite (Message_create_valid e u c w1 Htu Htc).
  unfold bind, insertOne. rewrite Hins. simpl.
  eexists. exists (new_message e u c). repeat split; simpl.
  - rewrite Hcol. reflexivity.
  - rewrite Hfeed. reflexivity.
Qed.

Lemma POST_valid_persists_witness :
  exists (w' : world) (d : document),
    POST sample_env alice_hello fresh_world =
      (Returned (NextResponse_json
                   [("success", JBool true); ("messageId", JStr (_id d))] 201), w') /\
    collection w' = (collection fresh_world ++ [d])%list /\
    feed w' = (feed fresh_world ++ [insert_event d])%list /\
    d = new_message sample_env "alice" "hello".
Proof.
  apply (POST_valid_persists sample_env alice_hello fresh_world "alice" "hello").
  - right. reflexivity.
  - reflexivity.
  - reflexivity.
  - reflexivity.
  - vm_compute. discriminate.
  - vm_compute. discriminate.
Defined.

(** Closes a case in which the handler ended with the collection as it
    was, against the hypothesis that it changed. *)
Ltac nothing_stored :=
  let H := fresh "H" in
  intros H; inversion H; subst; congruence.

(** C8. Whenever [POST], given strings for [username] and [content],
    stores a message, the stored [username] and [content] are the
    submitted strings with their leading and trailing white space removed,
    and neither is empty. *)
Theorem persisted_message_trimmed
    (e : env) (body : jsobject) (w w' : world) (u c : string)
    (r : outcome json_response)
    (Hu : get "username" body = JStr u)
    (Hc : get "content" body = JStr c)
    (Hpost : POST e body w = (r, w'))
    (Hnew : collection w' <> collection w) :
  exists d : document,
    collection w' = (collection w ++ [d])%list /\
    username d = trim u /\ trimmed_of u (username d) /\
    content d = trim c /\ trimmed_of c (content d) /\
    username d <> EmptyString /\ content d <> EmptyString.
Proof.
  revert Hpost. unfold POST, bind.
  destruct (connectDB_store e w) as [Hcol Hfeed].
  destruct (connectDB e w) as [[[]| |] w1]; simpl in Hcol; try nothing_stored.
  rewrite Hu, Hc. cbv zeta.
  destruct (negb (truthy (JStr u)) || negb (truthy (JStr c)));
    [nothing_stored|].
  rewrite Message_create_strings.
  destruct (trim u =? EmptyString) eqn:Eu, (trim c =? EmptyString) eqn:Ec;
    try nothing_stored.
  unfold insertOne. destruct (insert_ok e); [|nothing_stored].
  simpl. intros H. inversion H; subst; clear H.
  exists (new_message e u c). simpl.
  apply String.eqb_neq in Eu. apply String.eqb_neq in Ec.
  repeat split; try (apply trim_spec); try assumption.
  rewrite Hcol. reflexivity.
Qed.

Lemma persisted_message_trimmed_witness :
  exists d : document,
    collection (snd (POST sample_env alice_hello fresh_world)) =
      (collection fresh_world ++ [d])%list /\
    username d = trim "alice" /\ trimmed_of "alice" (username d) /\
    content d = trim "hello" /\ trimmed_of "hello" (content d) /\
    username d <> EmptyString /\ content d <> EmptyString.
Proof.
  apply (persisted_message_trimmed sample_env alice_hello fresh_world
           (snd (POST sample_env alice_hello fresh_world)) "alice" "hello"
           (fst (POST sample_env alice_hello fresh_world))).
  - reflexivity.
  - reflexivity.
  - reflexivity.
  - vm_compute. discriminate.
Defined.

(** C2, at [{ username: "   ", content: "hi" }] with the store available:
    the guard lets the blank name through, [Message.create] rejects with a
    validation error on [username], and [POST] has no handler for it, so
    the call throws and gives no 400 response.  Nothing is stored. *)
Theorem POST_blank_username_throws :
  fst (POST sample_env blank_username fresh_world) =
    Threw (ValidationError ["username"]) /\
  collection (snd (POST sample_env blank_username fresh_world)) = [] /\
  feed (snd (POST sample_env blank_username fresh_world)) = [].
Proof. vm_compute. repeat split. Qed.

(** ** [GET] and the stream *)

(** C9. [GET] always returns a response, and its headers are exactly
    [Content-Type: text/event-stream], [Cache-Control: no-cache] and
    [Connection: keep-alive]. *)
Theorem GET_headers (e : env) (w : world) :
  exists (r : stream_response) (w' : world),
    GET e w = (Returned r, w') /\
    headers r = [ ("Content-Type", "text/event-stream");
                  ("Cache-Control", "no-cache");
                  ("Connection", "keep-alive") ].
Proof.
  unfold GET, bind, connectDB_unawaited.
  destruct (1 <=? readyState (mongoose w))%Z; simpl; eexists; eexists;
    split; reflexivity.
Qed.

(** The abort listener enqueues nothing and leaves both the change stream
    and the controller closed, whatever the connection was. *)
Lemma abort_listener_closes (s : connection) :
  Streams.closed (changeStream (snd (abort_listener s))) = true /\
  Streams.closeRequested (controller (snd (abort_listener s))) = true /\
  sent (snd (abort_listener s)) = sent s.
Proof.
  unfold abort_listener, bind, on_changeStream, on_controller, sent,
    Streams.ChangeStream_close, Streams.close. simpl.
  destruct (Streams.closeRequested (controller s)) eqn:Hc; simpl;
    repeat split; assumption.
Qed.

(** A change event that is not an insertion leaves the connection as it
    was. *)
Lemma change_listener_other (c : change) (s : connection) :
  operationType c <> "insert" -> change_listener c s = (Returned tt, s).
Proof.
  intros H. unfold change_listener.
  apply String.eqb_neq in H. rewrite H. reflexivity.
Qed.

(** On a closed controller [enqueue] throws and the queue is unchanged. *)
Lemma change_listener_closed (c : change) (s : connection) :
  Streams.closeRequested (controller s) = true ->
  snd (change_listener c s) = s.
Proof.
  intros H. unfold change_listener.
  destruct (operationType c =? "insert"); [|reflexivity].
  unfold on_controller, Streams.enqueue. rewrite H. simpl.
  destruct s as [cs ctl]. reflexivity.
Qed.

(** Once both are closed, they stay closed and nothing more is enqueued,
    whatever events follow. *)
Lemma closed_forever (evs : list event) :
  forall s : connection,
    Streams.closed (changeStream s) = true ->
    Streams.closeRequested (controller s) = true ->
    Streams.closed (changeStream (run evs s)) = true /\
    Streams.closeRequested (controller (run evs s)) = true /\
    sent (run evs s) = sent s.
Proof.
  induction evs as [|ev evs IH]; intros s Hcs Hctl.
  - repeat split; assumption.
  - unfold run. simpl. fold (run evs (step s ev)).
    assert (Hstep : Streams.closed (changeStream (step s ev)) = true /\
                    Streams.closeRequested (controller (step s ev)) = true /\
                    sent (step s ev) = sent s).
    { destruct ev as [c|]; unfold step, handle.
      - rewrite (change_listener_closed c s Hctl). repeat split; assumption.
      - apply abort_listener_closes. }
    destruct Hstep as (H1 & H2 & H3).
    destruct (IH (step s ev) H1 H2) as (H4 & H5 & H6).
    repeat split; try assumption. rewrite H6. exact H3.
Qed.

(** C5. A change event whose operation type is not [insert] enqueues
    nothing: the listener returns and the connection is as it was.  And
    whenever an event makes the chunks sent to the client change, it is a
    change event whose operation type is [insert]. *)
Theorem only_inserts_are_delivered (c : change) (s : connection)
    (Hop : operationType c <> "insert") :
  handle (Change c) s = (Returned tt, s) /\
  sent (step s (Change c)) = sent s /\
  forall (ev : event) (s0 : connection),
    sent (step s0 ev) <> sent s0 ->
    exists c0 : change, ev = Change c0 /\ operationType c0 = "insert".
Proof.
  split; [|split].
  - simpl. apply change_listener_other. exact Hop.
  - unfold step. simpl. rewrite (change_listener_other c s Hop). reflexivity.
  - intros [c0|] s0 Hsent.
    + exists c0. split; [reflexivity|].
      destruct (String.eqb_spec (operationType c0) "insert") as [Heq|Hne];
        [exact Heq|].
      exfalso. apply Hsent. unfold step. simpl.
      rewrite (change_listener_other c0 s0 Hne). reflexivity.
    + exfalso. apply Hsent. unfold step. simpl.
      apply abort_listener_closes.
Qed.

Lemma only_inserts_are_delivered_witness :
  handle (Change sample_update) start = (Returned tt, start) /\
  sent (step start (Change sample_update)) = sent start.
Proof.
  assert (Hop : operationType sample_update <> "insert")
    by (vm_compute; discriminate).
  split; apply (only_inserts_are_delivered sample_update start Hop).
Defined.

(** C6. When the abort signal of a connection fires, the one run of the
    abort listener closes the change stream and closes the outbound
    stream, enqueuing nothing; and whatever events come afterwards, both
    stay closed and no chunk is enqueued to that connection any more. *)
Theorem abort_tears_down (s : connection) (evs : list event) :
  Streams.closed (changeStream (step s Abort)) = true /\
  Streams.closeRequested (controller (step s Abort)) = true /\
  sent (step s Abort) = sent s /\
  Streams.closed (changeStream (run evs (step s Abort))) = true /\
  Streams.closeRequested (controller (run evs (step s Abort))) = true /\
  sent (run evs (step s Abort)) = sent (step s Abort).
Proof.
  destruct (abort_listener_closes s) as (H1 & H2 & H3).
  unfold step at 1 2 3. simpl handle.
  split; [exact H1|]. split; [exact H2|]. split; [exact H3|].
  apply closed_forever; assumption.
Qed.

(** Appending strings is associative. *)
Lemma append_assoc (a b c : string) : (a ++ b) ++ c = a ++ (b ++ c).
Proof.
  induction a as [|x a IH]; simpl; [reflexivity|].
  rewrite IH. reflexivity.
Qed.

(** The JSON text of a stored message has the six stored fields, in stored
    order. *)
Lemma stored_document_frame (d : document) :
  messageString (Some (toObject d)) = document_frame d.
Proof.
  destruct d.
  unfold messageString, document_frame, JSON_stringify, template_subst,
    JSON_stringify_object, toObject, quote.
  cbn -[Number_toString escape].
  repeat (rewrite !append_assoc; cbn -[Number_toString escape]).
  reflexivity.
Qed.

(** C1, as amended.  For every insert event delivered to a connection
    whose stream is open, exactly one chunk is enqueued: the bytes of
    [data: ], then the JSON text of the event's full document, then two
    newline characters.  For a stored message that JSON object has the six
    fields [_id], [username], [content], [createdAt], [updatedAt] and
    [__v], in this order. *)
Theorem insert_frame_is_full_document (c : change) (o : jsobject) (s : connection)
    (Hop : operationType c = "insert")
    (Hdoc : fullDocument c = Some o)
    (Hopen : Streams.closeRequested (controller s) = false) :
  fst (handle (Change c) s) = Returned tt /\
  sent (step s (Change c)) =
    (sent s ++ [TextEncoder_encode
                  ("data: " ++ JSON_stringify_object o ++ two_newlines)])%list /\
  forall d : document,
    o = toObject d ->
    sent (step s (Change c)) =
      (sent s ++ [TextEncoder_encode (document_frame d)])%list.
Proof.
  assert (Hsent : sent (step s (Change c)) =
                  (sent s ++ [TextEncoder_encode (messageString (Some o))])%list).
  { unfold step, handle, change_listener. rewrite Hop, Hdoc. simpl.
    unfold on_controller, Streams.enqueue. rewrite Hopen. reflexivity. }
  split; [|split].
  - unfold handle, change_listener. rewrite Hop. simpl.
    unfold on_controller, Streams.enqueue. rewrite Hopen. reflexivity.
  - exact Hsent.
  - intros d ->. rewrite Hsent, stored_document_frame. reflexivity.
Qed.

Lemma insert_frame_is_full_document_witness :
  sent (step start (Change alice_insert)) =
    [TextEncoder_encode (document_frame (new_message sample_env "alice" "hello"))].
Proof.
  apply (insert_frame_is_full_document alice_insert
           (toObject (new_message sample_env "alice" "hello")) start);
    reflexivity.
Defined.

(** C1, as stated, fails: the frame enqueued for the insertion of the
    message stored for [{ username: "alice", content: "hello" }] is not
    the frame of any object with the four fields [id], [username],
    [content], [createdAt]. *)
Lemma four_field_frame_refuted :
  ~ exists id username content createdAt : jsval,
      sent (step start (Change alice_insert)) =
        [TextEncoder_encode (four_field_frame id username content createdAt)].
Proof.
  intros (v1 & v2 & v3 & v4 & H).
  apply (f_equal (fun q => match q with
                           | [chunk] => nth_error chunk 8
                           | _ => None
                           end)) in H.
  unfold four_field_frame, JSON_stringify_object in H.
  cbn [JSON_properties] in H.
  destruct (JSON_stringify_value v1), (JSON_stringify_value v2),
    (JSON_stringify_value v3), (JSON_stringify_value v4);
    lazy in H; discriminate H.
Qed.

(** * Further properties *)

(** ** [connectDB], from a disconnected state *)

Ltac run_connectDB :=
  unfold connectDB, try_catch, bind, mongoose_connect, bind,
    mongoose_set_strictQuery, mongoose_connect_call, mongoose_connect_settle,
    console_error, process_exit, console_log, set_mongoose.

(** The call from a disconnected state, by cases on the server's answer. *)
Lemma connectDB_disconnected (e : env) (w : world) :
  (readyState (mongoose w) < 1)%Z ->
  connectDB e w =
    if connect_ok e then
      (Returned tt,
       {| mongoose := {| readyState := 1; strictQuery := Some true;
                         connects := connects (mongoose w) ++ [MONGO_URI e] |};
          console := console w ++ ["Database connected"];
          collection := collection w; feed := feed w |})
    else
      (Exited 1,
       {| mongoose := {| readyState := 0; strictQuery := Some true;
                         connects := connects (mongoose w) ++ [MONGO_URI e] |};
          console := console w ++ ["Error connecting to the database:"];
          collection := collection w; feed := feed w |}).
Proof.
  intros H. run_connectDB.
  destruct (Z.leb_spec 1 (readyState (mongoose w))) as [H'|_]; [lia|].
  simpl. destruct (connect_ok e); reflexivity.
Qed.

(** X1. [connectDB] never throws: it returns when the store is available
    and otherwise ends the process with exit code 1. *)
Theorem connectDB_returns_or_exits (e : env) (w : world) :
  (fst (connectDB e w) = Returned tt /\ db_available e w) \/
  (fst (connectDB e w) = Exited 1 /\ ~ db_available e w).
Proof.
  destruct (Z.leb_spec 1 (readyState (mongoose w))) as [Hr|Hr].
  - left. rewrite (connectDB_connected e w Hr). split; [reflexivity|].
    left. exact Hr.
  - rewrite (connectDB_disconnected e w Hr).
    destruct (connect_ok e) eqn:Hok.
    + left. split; [reflexivity|]. right. exact Hok.
    + right. split; [reflexivity|]. intros [H|H]; [lia|congruence].
Qed.

(** X2. From a disconnected state, with a server that accepts the
    connection, [connectDB] sets [strictQuery], calls [mongoose.connect]
    once, with [MONGO_URI], leaves mongoose connected and logs it; the
    collection and the feed are untouched. *)
Theorem connectDB_connects (e : env) (w : world)
    (Hdown : (readyState (mongoose w) < 1)%Z)
    (Hok : connect_ok e = true) :
  exists w',
    connectDB e w = (Returned tt, w') /\
    readyState (mongoose w') = 1%Z /\
    strictQuery (mongoose w') = Some true /\
    connects (mongoose w') = (connects (mongoose w) ++ [MONGO_URI e])%list /\
    console w' = (console w ++ ["Database connected"])%list /\
    collection w' = collection w /\ feed w' = feed w.
Proof.
  rewrite (connectDB_disconnected e w Hdown), Hok.
  eexists. repeat split.
Qed.

Lemma connectDB_connects_witness :
  exists w',
    connectDB sample_env fresh_world = (Returned tt, w') /\
    readyState (mongoose w') = 1%Z /\
    strictQuery (mongoose w') = Some true /\
    connects (mongoose w') =
      (connects (mongoose fresh_world) ++ [MONGO_URI sample_env])%list /\
    console w' = (console fresh_world ++ ["Database connected"])%list /\
    collection w' = collection fresh_world /\ feed w' = feed fresh_world.
Proof.
  apply (connectDB_connects sample_env fresh_world).
  - simpl. lia.
  - reflexivity.
Defined.

(** X3. From a disconnected state, with a server that refuses the
    connection, [connectDB] catches the error, logs it and ends the
    process with exit code 1; nothing is stored. *)
Theorem connectDB_unreachable_exits (e : env) (w : world)
    (Hdown : (readyState (mongoose w) < 1)%Z)
    (Hfail : connect_ok e = false) :
  fst (connectDB e w) = Exited 1 /\
  console (snd (connectDB e w)) =
    (console w ++ ["Error connecting to the database:"])%list /\
  collection (snd (connectDB e w)) = collection w /\
  feed (snd (connectDB e w)) = feed w.
Proof.
  rewrite (connectDB_disconnected e w Hdown), Hfail. repeat split.
Qed.

Lemma connectDB_unreachable_exits_witness :
  fst (connectDB unreachable_env fresh_world) = Exited 1 /\
  console (snd (connectDB unreachable_env fresh_world)) =
    (console fresh_world ++ ["Error connecting to the database:"])%list /\
  collection (snd (connectDB unreachable_env fresh_world)) = collection fresh_world /\
  feed (snd (connectDB unreachable_env fresh_world)) = feed fresh_world.
Proof.
  apply (connectDB_unreachable_exits unreachable_env fresh_world).
  - simpl. lia.
  - reflexivity.
Defined.

(** ** [POST], the other paths *)

(** [POST] once [connectDB] returned. *)
Lemma POST_connected (e : env) (body : jsobject) (w w1 : world) :
  connectDB e w = (Returned tt, w1) ->
  POST e body w =
    (if negb (truthy (get "username" body)) || negb (truthy (get "content" body))
     then ret (NextResponse_json [("error", JStr "Invalid input")] 400)
     else
       result <- Message_create e [("username", get "username" body);
                                   ("content", get "content" body)] ;;
       ret (NextResponse_json
              [("success", JBool true); ("messageId", JStr (_id result))] 201)) w1.
Proof.
  intros H. unfold POST, bind at 1. rewrite H. reflexivity.
Qed.

(** What [Message.create] can do, whatever it is given: store one
    document made under the generated identifier, or throw and leave the
    world as it was. *)
Lemma Message_create_cases (e : env) (obj : jsobject) (w : world) :
  (exists d,
      Message_create e obj w =
        (Returned d,
         {| mongoose := mongoose w; console := console w;
            collection := collection w ++ [d];
            feed := feed w ++ [insert_event d] |}) /\
      _id d = ObjectId e /\ insert_ok e = true /\
      invalid_paths messageSchema obj = []) \/
  (Message_create e obj w = (Threw MongoError, w) /\ insert_ok e = false /\
   invalid_paths messageSchema obj = []) \/
  (exists p ps,
      Message_create e obj w = (Threw (ValidationError (p :: ps)), w) /\
      invalid_paths messageSchema obj = p :: ps).
Proof.
  unfold Message_create.
  destruct (invalid_paths messageSchema obj) as [|p ps].
  - unfold bind, insertOne. destruct (insert_ok e).
    + left. eexists. repeat split.
    + right. left. repeat split.
  - right. right. exists p, ps. split; reflexivity.
Qed.

(** X4. With the store unreachable, [POST] ends the process with exit
    code 1 whatever the submission is, also an invalid one: it answers
    nothing, stores nothing and dispatches nothing. *)
Theorem POST_unreachable_exits (e : env) (body : jsobject) (w : world)
    (Hdown : ~ db_available e w) :
  fst (POST e body w) = Exited 1 /\
  collection (snd (POST e body w)) = collection w /\
  feed (snd (POST e body w)) = feed w.
Proof.
  destruct (connectDB_store e w) as [Hc Hf].
  unfold POST, bind.
  destruct (Z.leb_spec 1 (readyState (mongoose w))) as [Hr|Hr].
  - exfalso. apply Hdown. left. exact Hr.
  - revert Hc Hf. rewrite (connectDB_disconnected e w Hr).
    destruct (connect_ok e) eqn:Hok.
    + exfalso. apply Hdown. right. exact Hok.
    + simpl. intros _ _. repeat split.
Qed.

Lemma POST_unreachable_exits_witness :
  fst (POST unreachable_env empty_username fresh_world) = Exited 1 /\
  collection (snd (POST unreachable_env empty_username fresh_world)) =
    collection fresh_world /\
  feed (snd (POST unreachable_env empty_username fresh_world)) = feed fresh_world.
Proof.
  apply (POST_unreachable_exits unreachable_env empty_username fresh_world).
  intros [H|H]; [simpl in H; lia | discriminate H].
Defined.

(** [connectDB] returns or exits with code 1; either way the store is as
    it was. *)
Lemma connectDB_cases (e : env) (w : world) :
  exists w1,
    (connectDB e w = (Returned tt, w1) \/ connectDB e w = (Exited 1, w1)) /\
    collection w1 = collection w /\ feed w1 = feed w.
Proof.
  destruct (Z.leb_spec 1 (readyState (mongoose w))) as [Hr|Hr].
  - rewrite (connectDB_connected e w Hr).
    eexists. split; [left; reflexivity | split; reflexivity].
  - rewrite (connectDB_disconnected e w Hr).
    destruct (connect_ok e); eexists;
      (split; [(left; reflexivity) || (right; reflexivity) | split; reflexivity]).
Qed.

(** [POST] on two strings that are not empty once trimmed, with the store
    available. *)
Lemma POST_valid (e : env) (body : jsobject) (w : world) (u c : string) :
  db_available e w ->
  get "username" body = JStr u -> get "content" body = JStr c ->
  trim u <> EmptyString -> trim c <> EmptyString ->
  exists w1,
    collection w1 = collection w /\ feed w1 = feed w /\
    POST e body w =
      (result <- insertOne e (new_message e u c) ;;
       ret (NextResponse_json
              [("success", JBool true);
               ("messageId", JStr (_id (new_message e u c)))] 201)) w1.
Proof.
  intros Hdb Hu Hc Htu Htc.
  destruct (connectDB_available e w Hdb) as (w1 & Hcon & Hcol & Hfeed & _).
  exists w1. split; [exact Hcol|]. split; [exact Hfeed|].
  rewrite (POST_connected e body w w1 Hcon), Hu, Hc.
  assert (Hnu : (u =? EmptyString) = false).
  { apply String.eqb_neq. intros ->. apply Htu. reflexivity. }
  assert (Hnc : (c =? EmptyString) = false).
  { apply String.eqb_neq. intros ->. apply Htc. reflexivity. }
  unfold truthy. rewrite Hnu, Hnc. cbn [negb orb].
  unfold bind. rewrite (Message_create_valid e u c w1 Htu Htc).
  unfold bind. destruct (insertOne e (new_message e u c) w1) as [[[]| |] w2];
    reflexivity.
Qed.

(** X5. When the store is available but rejects the insert, a valid
    submission makes [POST] throw the driver's error: no response is
    built, no message is stored and the feed gets no event. *)
Theorem POST_insert_rejected (e : env) (body : jsobject) (w : world) (u c : string)
    (Hdb : db_available e w)
    (Hins : insert_ok e = false)
    (Hu : get "username" body = JStr u)
    (Hc : get "content" body = JStr c)
    (Htu : trim u <> EmptyString)
    (Htc : trim c <> EmptyString) :
  fst (POST e body w) = Threw MongoError /\
  collection (snd (POST e body w)) = collection w /\
  feed (snd (POST e body w)) = feed w.
Proof.
  destruct (POST_valid e body w u c Hdb Hu Hc Htu Htc) as (w1 & Hcol & Hfeed & ->).
  unfold bind, insertOne. rewrite Hins. simpl. repeat split; assumption.
Qed.

Lemma POST_insert_rejected_witness :
  fst (POST failing_insert_env alice_hello fresh_world) = Threw MongoError /\
  collection (snd (POST failing_insert_env alice_hello fresh_world)) =
    collection fresh_world /\
  feed (snd (POST failing_insert_env alice_hello fresh_world)) = feed fresh_world.
Proof.
  apply (POST_insert_rejected failing_insert_env alice_hello fresh_world
           "alice" "hello").
  - right. reflexivity.
  - reflexivity.
  - reflexivity.
  - reflexivity.
  - vm_compute. discriminate.
  - vm_compute. discriminate.
Defined.

(** X6. With the store available, every falsy [username] or [content]
    ([undefined], [null], [false], [0] or the empty string) is answered
    400 with [{ error: "Invalid input" }], and nothing is stored or
    dispatched. *)
Theorem POST_falsy_field (e : env) (body : jsobject) (w : world)
    (Hdb : db_available e w)
    (Hfalsy : truthy (get "username" body) = false \/
              truthy (get "content" body) = false) :
  exists w',
    POST e body w =
      (Returned (NextResponse_json [("error", JStr "Invalid input")] 400), w') /\
    collection w' = collection w /\
    feed w' = feed w.
Proof.
  destruct (connectDB_available e w Hdb) as (w1 & Hcon & Hcol & Hfeed & _).
  exists w1. rewrite (POST_connected e body w w1 Hcon).
  assert (Hg : negb (truthy (get "username" body)) ||
               negb (truthy (get "content" body)) = true).
  { destruct Hfalsy as [H|H]; rewrite H; simpl;
      [reflexivity | apply orb_true_r]. }
  rewrite Hg. repeat split; assumption.
Qed.

Lemma POST_falsy_field_witness :
  exists w',
    POST sample_env null_username connected_world =
      (Returned (NextResponse_json [("error", JStr "Invalid input")] 400), w') /\
    collection w' = collection connected_world /\
    feed w' = feed connected_world.
Proof.
  apply (POST_falsy_field sample_env null_username connected_world).
  - left. simpl. lia.
  - left. reflexivity.
Defined.

(** X7. With the store available, a submission of two non-empty strings
    of which one is only white space is not answered 400: [POST] throws
    the validation error of [Message.create], which names exactly the
    fields that are empty once trimmed; nothing is stored or
    dispatched. *)
Theorem POST_blank_field_throws (e : env) (body : jsobject) (w : world) (u c : string)
    (Hdb : db_available e w)
    (Hu : get "username" body = JStr u)
    (Hc : get "content" body = JStr c)
    (Hnu : u <> EmptyString)
    (Hnc : c <> EmptyString)
    (Hblank : trim u = EmptyString \/ trim c = EmptyString) :
  exists paths,
    fst (POST e body w) = Threw (ValidationError paths) /\
    (In "username" paths <-> trim u = EmptyString) /\
    (In "content" paths <-> trim c = EmptyString) /\
    collection (snd (POST e body w)) = collection w /\
    feed (snd (POST e body w)) = feed w.
Proof.
  destruct (connectDB_available e w Hdb) as (w1 & Hcon & Hcol & Hfeed & _).
  rewrite (POST_connected e body w w1 Hcon), Hu, Hc.
  apply String.eqb_neq in Hnu. apply String.eqb_neq in Hnc.
  unfold truthy. rewrite Hnu, Hnc. cbn [negb orb].
  unfold bind. rewrite Message_create_strings.
  destruct (String.eqb_spec (trim u) EmptyString) as [Eu|Eu],
           (String.eqb_spec (trim c) EmptyString) as [Ec|Ec].
  - exists ["username"; "content"]. simpl. repeat split; auto.
  - exists ["username"]. simpl. repeat split; auto.
    intros [H|[]]. discriminate H.
  - exists ["content"]. simpl. repeat split; auto.
    intros [H|[]]. discriminate H.
  - exfalso. destruct Hblank; contradiction.
Qed.

Lemma POST_blank_field_throws_witness :
  exists paths,
    fst (POST sample_env blank_content fresh_world) = Threw (ValidationError paths) /\
    (In "username" paths <-> trim "bob" = EmptyString) /\
    (In "content" paths <-> trim "  " = EmptyString) /\
    collection (snd (POST sample_env blank_content fresh_world)) =
      collection fresh_world /\
    feed (snd (POST sample_env blank_content fresh_world)) = feed fresh_world.
Proof.
  apply (POST_blank_field_throws sample_env blank_content fresh_world "bob" "  ").
  - right. reflexivity.
  - reflexivity.
  - reflexivity.
  - discriminate.
  - discriminate.
  - right. reflexivity.
Defined.

(** X8. Whatever the submission and the environment, [POST] either leaves
    the collection and the feed as they were, and then any response it
    gives is the 400 one; or it appends exactly one message and its
    insert event and answers 201 with that message's identifier.  Stored
    messages are never altered or removed. *)
Theorem POST_all_or_nothing (e : env) (body : jsobject) (w : world) :
  (collection (snd (POST e body w)) = collection w /\
   feed (snd (POST e body w)) = feed w /\
   forall resp, fst (POST e body w) = Returned resp ->
                resp = NextResponse_json [("error", JStr "Invalid input")] 400) \/
  (exists d,
      fst (POST e body w) =
        Returned (NextResponse_json
                    [("success", JBool true); ("messageId", JStr (_id d))] 201) /\
      collection (snd (POST e body w)) = (collection w ++ [d])%list /\
      feed (snd (POST e body w)) = (feed w ++ [insert_event d])%list /\
      _id d = ObjectId e).
Proof.
  destruct (connectDB_cases e w) as (w1 & [Hcon|Hcon] & Hcol & Hfeed).
  - rewrite (POST_connected e body w w1 Hcon).
    destruct (negb (truthy (get "username" body)) ||
              negb (truthy (get "content" body))).
    + left. simpl. repeat split; try assumption.
      intros resp H. inversion H. reflexivity.
    + unfold bind.
      destruct (Message_create_cases e
                  [("username", get "username" body); ("content", get "content" body)]
                  w1) as [(d & -> & Hid & _)|[(-> & _)|(p & ps & -> & _)]].
      * right. exists d. simpl. rewrite Hcol, Hfeed. repeat split. exact Hid.
      * left. simpl. repeat split; try assumption. intros resp H. discriminate H.
      * left. simpl. repeat split; try assumption. intros resp H. discriminate H.
  - left. unfold POST, bind. rewrite Hcon. simpl.
    repeat split; try assumption. intros resp H. discriminate H.
Qed.

(** ** Strings the schema leaves as they are *)

Lemma trimStart_fixed (s : string) :
  notWhiteSpace (firstChar s) = true -> trimStart s = s.
Proof.
  destruct s as [|c s]; simpl; [reflexivity|].
  destruct (isWhiteSpace c); [discriminate | reflexivity].
Qed.

Lemma trimEnd_fixed (s : string) :
  notWhiteSpace (lastChar s) = true -> trimEnd s = s.
Proof.
  induction s as [|c s IH]; [reflexivity|].
  destruct s as [|c' s'].
  - simpl. destruct (isWhiteSpace c); [discriminate | reflexivity].
  - intros H. change (lastChar (String c (String c' s')))
      with (lastChar (String c' s')) in H.
    specialize (IH H).
    change (trimEnd (String c (String c' s')))
      with (match trimEnd (String c' s') with
            | EmptyString =>
                if isWhiteSpace c then EmptyString else String c EmptyString
            | String a t => String c (String a t)
            end).
    rewrite IH. reflexivity.
Qed.

(** A string that neither begins nor ends with white space is its own
    trimmed form. *)
Lemma trim_fixed (s : string) :
  notWhiteSpace (firstChar s) = true ->
  notWhiteSpace (lastChar s) = true ->
  trim s = s.
Proof.
  intros Hf Hl. unfold trim. rewrite (trimStart_fixed s Hf).
  apply trimEnd_fixed. exact Hl.
Qed.

(** X9. With the store available and accepting the insert, a submission
    of two non-empty strings that neither begin nor end with white space
    is stored verbatim: the new message's [username] and [content] are
    the submitted strings, both time stamps are the clock's reading and
    the version is 0. *)
Theorem POST_stores_verbatim (e : env) (body : jsobject) (w : world) (u c : string)
    (Hdb : db_available e w)
    (Hins : insert_ok e = true)
    (Hu : get "username" body = JStr u)
    (Hc : get "content" body = JStr c)
    (Hnu : u <> EmptyString)
    (Hnc : c <> EmptyString)
    (Hufirst : notWhiteSpace (firstChar u) = true)
    (Hulast : notWhiteSpace (lastChar u) = true)
    (Hcfirst : notWhiteSpace (firstChar c) = true)
    (Hclast : notWhiteSpace (lastChar c) = true) :
  collection (snd (POST e body w)) =
    (collection w ++ [ {| _id := ObjectId e;
                          username := u;
                          content := c;
                          createdAt := Date_now e;
                          updatedAt := Date_now e;
                          __v := 0 |} ])%list.
Proof.
  assert (Htu : trim u = u) by (apply trim_fixed; assumption).
  assert (Htc : trim c = c) by (apply trim_fixed; assumption).
  destruct (POST_valid e body w u c Hdb Hu Hc) as (w1 & Hcol & _ & ->);
    [rewrite Htu; exact Hnu | rewrite Htc; exact Hnc |].
  unfold bind, insertOne, new_message. rewrite Hins, Htu, Htc. simpl.
  rewrite Hcol. reflexivity.
Qed.

Lemma POST_stores_verbatim_witness :
  collection (snd (POST sample_env alice_hello fresh_world)) =
    (collection fresh_world ++
       [ {| _id := ObjectId sample_env;
            username := "alice";
            content := "hello";
            createdAt := Date_now sample_env;
            updatedAt := Date_now sample_env;
            __v := 0 |} ])%list.
Proof.
  apply (POST_stores_verbatim sample_env alice_hello fresh_world "alice" "hello");
    try reflexivity; try discriminate.
  right. reflexivity.
Defined.

(** ** [GET] does not wait for the database *)

(** X10. Called while mongoose is disconnected, [GET] starts the
    connection and returns without waiting for it: the response has
    status 200 and an open stream with nothing enqueued, mongoose is left
    connecting after one [mongoose.connect] call with [MONGO_URI], and
    neither the outcome nor the world depends on whether the server will
    accept the connection.  Stored messages are not replayed and nothing
    is stored. *)
Theorem GET_returns_while_connecting (e : env) (w : world)
    (Hdown : (readyState (mongoose w) < 1)%Z) :
  exists (r : stream_response) (w' : world),
    GET e w = (Returned r, w') /\
    status r = 200%Z /\
    body r = start /\ sent (body r) = [] /\
    readyState (mongoose w') = 2%Z /\
    connects (mongoose w') = (connects (mongoose w) ++ [MONGO_URI e])%list /\
    collection w' = collection w /\ feed w' = feed w /\
    forall e' : env, MONGO_URI e' = MONGO_URI e -> GET e' w = GET e w.
Proof.
  unfold GET, bind, connectDB_unawaited.
  destruct (Z.leb_spec 1 (readyState (mongoose w))) as [H|_]; [lia|].
  simpl. eexists. eexists. repeat split.
  intros e' He'. rewrite He'. reflexivity.
Qed.

Lemma GET_returns_while_connecting_witness :
  exists (r : stream_response) (w' : world),
    GET unreachable_env fresh_world = (Returned r, w') /\
    status r = 200%Z /\
    body r = start /\ sent (body r) = [] /\
    readyState (mongoose w') = 2%Z /\
    connects (mongoose w') =
      (connects (mongoose fresh_world) ++ [MONGO_URI unreachable_env])%list /\
    collection w' = collection fresh_world /\ feed w' = feed fresh_world /\
    forall e' : env,
      MONGO_URI e' = MONGO_URI unreachable_env ->
      GET e' fresh_world = GET unreachable_env fresh_world.
Proof.
  apply (GET_returns_while_connecting unreachable_env fresh_world).
  simpl. lia.
Defined.

(** ** What a connection sends *)

(** On an open stream an insert event appends its frame. *)
Lemma step_insert_open (c : change) (s : connection) :
  operationType c = "insert" ->
  Streams.closeRequested (controller s) = false ->
  Streams.closeRequested (controller (step s (Change c))) = false /\
  sent (step s (Change c)) = (sent s ++ [frame_of c])%list.
Proof.
  intros Hop Hopen. unfold step, handle, change_listener, frame_of.
  rewrite Hop. simpl. unfold on_controller, Streams.enqueue, sent.
  rewrite Hopen. simpl. split; reflexivity.
Qed.

(** Once the controller is closed nothing more is enqueued and it stays
    closed, whatever events follow. *)
Lemma controller_closed_forever (evs : list event) :
  forall s : connection,
    Streams.closeRequested (controller s) = true ->
    Streams.closeRequested (controller (run evs s)) = true /\
    sent (run evs s) = sent s.
Proof.
  induction evs as [|ev evs IH]; intros s Hctl.
  - split; [exact Hctl | reflexivity].
  - unfold run. simpl. fold (run evs (step s ev)).
    assert (Hstep : Streams.closeRequested (controller (step s ev)) = true /\
                    sent (step s ev) = sent s).
    { destruct ev as [c|]; unfold step, handle.
      - rewrite (change_listener_closed c s Hctl). split; [exact Hctl | reflexivity].
      - destruct (abort_listener_closes s) as (_ & H2 & H3). split; assumption. }
    destruct Hstep as [H1 H2].
    destruct (IH (step s ev) H1) as [H3 H4].
    split; [exact H3 | rewrite H4; exact H2].
Qed.

(** X11. On an open stream, a sequence of events puts on the stream
    exactly one frame for each insert event that comes before the first
    abort, in the order of the events: no frame is dropped, repeated or
    reordered, and nothing else is enqueued. *)
Theorem stream_sends_inserts_in_order (evs : list event) (s : connection)
    (Hopen : Streams.closeRequested (controller s) = false) :
  sent (run evs s) = (sent s ++ delivered evs)%list.
Proof.
  revert s Hopen. induction evs as [|ev evs IH]; intros s Hopen.
  - simpl. rewrite app_nil_r. reflexivity.
  - unfold run. simpl fold_left. fold (run evs (step s ev)).
    destruct ev as [c|].
    + simpl delivered.
      destruct (String.eqb_spec (operationType c) "insert") as [Hop|Hop].
      * destruct (step_insert_open c s Hop Hopen) as [Ho Hs].
        rewrite (IH _ Ho), Hs, <- app_assoc. reflexivity.
      * assert (Hs : step s (Change c) = s).
        { unfold step. simpl. rewrite (change_listener_other c s Hop). reflexivity. }
        rewrite Hs. apply IH. exact Hopen.
    + simpl delivered. rewrite app_nil_r.
      destruct (abort_listener_closes s) as (_ & H2 & H3).
      destruct (controller_closed_forever evs (step s Abort) H2) as [_ H4].
      rewrite H4. exact H3.
Qed.

Lemma stream_sends_inserts_in_order_witness :
  sent (run [Change alice_insert; Change sample_update; Change bob_insert;
             Abort; Change alice_insert] start) =
    [frame_of alice_insert; frame_of bob_insert].
Proof.
  apply (stream_sends_inserts_in_order
           [Change alice_insert; Change sample_update; Change bob_insert;
            Abort; Change alice_insert] start).
  reflexivity.
Defined.

(** One event only adds to what was sent. *)
Lemma step_grows (s : connection) (ev : event) :
  exists more, sent (step s ev) = (sent s ++ more)%list.
Proof.
  destruct ev as [c|].
  - destruct (Streams.closeRequested (controller s)) eqn:Hc.
    + exists []. unfold step, handle.
      rewrite (change_listener_closed c s Hc), app_nil_r. reflexivity.
    + destruct (String.eqb_spec (operationType c) "insert") as [Hop|Hop].
      * exists [frame_of c]. apply step_insert_open; assumption.
      * exists []. unfold step, handle.
        rewrite (change_listener_other c s Hop), app_nil_r. reflexivity.
  - exists []. rewrite app_nil_r. apply abort_listener_closes.
Qed.

(** X12. Whatever the connection and the events, the chunks already sent
    stay: the chunks after the events are those before them, followed by
    the new ones. *)
Theorem sent_only_grows (evs : list event) (s : connection) :
  exists more, sent (run evs s) = (sent s ++ more)%list.
Proof.
  revert s. induction evs as [|ev evs IH]; intros s.
  - exists []. rewrite app_nil_r. reflexivity.
  - unfold run. simpl fold_left. fold (run evs (step s ev)).
    destruct (step_grows s ev) as [m1 H1].
    destruct (IH (step s ev)) as [m2 H2].
    exists (m1 ++ m2)%list. rewrite H2, H1, app_assoc. reflexivity.
Qed.

(** X13. Once the stream is closed the listeners are not guarded: an
    insert event makes the change listener throw the controller's
    [TypeError] instead of enqueuing, and a second abort makes the abort
    listener throw it too; either way nothing is enqueued. *)
Theorem closed_stream_listeners_throw (c : change) (s : connection)
    (Hclosed : Streams.closeRequested (controller s) = true)
    (Hop : operationType c = "insert") :
  handle (Change c) s =
    (Threw (TypeError "Invalid state: Controller is already closed"), s) /\
  fst (handle Abort s) =
    Threw (TypeError "Invalid state: Controller is already closed") /\
  sent (snd (handle Abort s)) = sent s.
Proof.
  split; [|split].
  - unfold handle, change_listener. rewrite Hop. simpl.
    unfold on_controller, Streams.enqueue. rewrite Hclosed.
    destruct s as [cs ctl]. reflexivity.
  - unfold handle, abort_listener, bind, on_changeStream, on_controller,
      Streams.ChangeStream_close, Streams.close. simpl.
    rewrite Hclosed. reflexivity.
  - apply abort_listener_closes.
Qed.

Lemma closed_stream_listeners_throw_witness :
  handle (Change alice_insert) (step start Abort) =
    (Threw (TypeError "Invalid state: Controller is already closed"),
     step start Abort) /\
  fst (handle Abort (step start Abort)) =
    Threw (TypeError "Invalid state: Controller is already closed") /\
  sent (snd (handle Abort (step start Abort))) = sent (step start Abort).
Proof.
  apply (closed_stream_listeners_throw alice_insert (step start Abort));
    reflexivity.
Defined.

(** X14. From submission to stream: with the store available and
    accepting the insert, a valid submission adds one event to the change
    feed, and that event, delivered to an open connection, enqueues the
    six-field frame of the stored message, whose [_id] is the [messageId]
    of the 201 response and whose [username] and [content] are the
    trimmed submitted strings. *)
Theorem POST_then_stream
    (e : env) (body : jsobject) (w : world) (u c : string) (s : connection)
    (Hdb : db_available e w)
    (Hins : insert_ok e = true)
    (Hu : get "username" body = JStr u)
    (Hc : get "content" body = JStr c)
    (Htu : trim u <> EmptyString)
    (Htc : trim c <> EmptyString)
    (Hopen : Streams.closeRequested (controller s) = false) :
  exists (ev : change) (d : document),
    fst (POST e body w) =
      Returned (NextResponse_json
                  [("success", JBool true); ("messageId", JStr (_id d))] 201) /\
    feed (snd (POST e body w)) = (feed w ++ [ev])%list /\
    sent (step s (Change ev)) =
      (sent s ++ [TextEncoder_encode (document_frame d)])%list /\
    username d = trim u /\ content d = trim c.
Proof.
  destruct (POST_valid e body w u c Hdb Hu Hc Htu Htc) as (w1 & _ & Hfeed & ->).
  exists (insert_event (new_message e u c)), (new_message e u c).
  unfold bind, insertOne. rewrite Hins. simpl.
  repeat split.
  - rewrite Hfeed. reflexivity.
  - destruct (step_insert_open (insert_event (new_message e u c)) s
                (eq_refl _) Hopen) as [_ Hs].
    rewrite Hs. unfold frame_of. simpl fullDocument.
    rewrite stored_document_frame. reflexivity.
Qed.

Lemma POST_then_stream_witness :
  exists (ev : change) (d : document),
    fst (POST sample_env padded_bob fresh_world) =
      Returned (NextResponse_json
                  [("success", JBool true); ("messageId", JStr (_id d))] 201) /\
    feed (snd (POST sample_env padded_bob fresh_world)) =
      (feed fresh_world ++ [ev])%list /\
    sent (step start (Change ev)) =
      (sent start ++ [TextEncoder_encode (document_frame d)])%list /\
    username d = trim " bob " /\ content d = trim "hi there".
Proof.
  apply (POST_then_stream sample_env padded_bob fresh_world " bob " "hi there" start).
  - right. reflexivity.
  - reflexivity.
  - reflexivity.
  - reflexivity.
  - vm_compute. discriminate.
  - vm_compute. discriminate.
  - reflexivity.
Defined.

(** ** Frames on the wire *)

Lemma string_forall_app (p : ascii -> bool) (a b : string) :
  string_forall p (a ++ b) = string_forall p a && string_forall p b.
Proof.
  induction a as [|x a IH]; simpl; [reflexivity|].
  rewrite IH, andb_assoc. reflexivity.
Qed.

(** The escape of any code unit holds no control character. *)
Lemma escapeChar_not_control (c : ascii) :
  string_forall not_control (escapeChar c) = true.
Proof. destruct c as [[] [] [] [] [] [] [] []]; reflexivity. Qed.

(** Only a control character encodes to a line feed or carriage return. *)
Lemma utf8_line_bytes (c : ascii) :
  not_control c = true -> forallb line_byte (utf8 c) = true.
Proof.
  destruct c as [[] [] [] [] [] [] [] []]; intros H; try reflexivity; discriminate H.
Qed.

(** Decoding reads back one encoded code unit. *)
Lemma utf8_decode_utf8 (c : ascii) (bs : list byte) :
  Decode.utf8_decode (utf8 c ++ bs) = Decode.push c (Decode.utf8_decode bs).
Proof. destruct c as [[] [] [] [] [] [] [] []]; reflexivity. Qed.

(** Unquoting reads back one escaped code unit. *)
Lemma unquote_body_escapeChar (c : ascii) (t : string) :
  Decode.unquote_body (escapeChar c ++ t) =
    Decode.push_fst c (Decode.unquote_body t).
Proof. destruct c as [[] [] [] [] [] [] [] []]; reflexivity. Qed.

Lemma encode_app (a b : string) :
  TextEncoder_encode (a ++ b) = (TextEncoder_encode a ++ TextEncoder_encode b)%list.
Proof.
  induction a as [|x a IH]; simpl; [reflexivity|].
  rewrite IH, app_assoc. reflexivity.
Qed.

Lemma encode_line_bytes (s : string) :
  string_forall not_control s = true ->
  forallb line_byte (TextEncoder_encode s) = true.
Proof.
  induction s as [|c s IH]; simpl; [reflexivity|].
  intros H. apply andb_true_iff in H. destruct H as [Hc Hs].
  rewrite forallb_app, (utf8_line_bytes c Hc), (IH Hs). reflexivity.
Qed.

Lemma escape_not_control (s : string) :
  string_forall not_control (escape s) = true.
Proof.
  induction s as [|c s IH]; simpl; [reflexivity|].
  rewrite string_forall_app, escapeChar_not_control, IH. reflexivity.
Qed.

Lemma quote_not_control (s : string) :
  string_forall not_control (quote s) = true.
Proof.
  unfold quote. simpl. rewrite string_forall_app, escape_not_control.
  reflexivity.
Qed.

Lemma uint_not_control (d : Decimal.uint) :
  string_forall not_control (NilEmpty.string_of_uint d) = true.
Proof. induction d; simpl; try reflexivity; assumption. Qed.

Lemma Number_toString_not_control (n : Z) :
  string_forall not_control (Number_toString n) = true.
Proof.
  unfold Number_toString, NilZero.string_of_int, NilZero.string_of_uint.
  destruct (Z.to_int n) as [d|d]; destruct d; simpl;
    try reflexivity; apply uint_not_control.
Qed.

Lemma JSON_value_not_control (v : jsval) (sv : string) :
  JSON_stringify_value v = Some sv -> string_forall not_control sv = true.
Proof.
  destruct v as [| |[]|n|s]; simpl; intros H; inversion H; subst;
    try reflexivity.
  - apply Number_toString_not_control.
  - apply quote_not_control.
Qed.

Lemma JSON_properties_not_control (o : jsobject) :
  Forall (fun p => string_forall not_control p = true) (JSON_properties o).
Proof.
  induction o as [|[k v] o IH]; cbn [JSON_properties]; [constructor|].
  destruct (JSON_stringify_value v) as [sv|] eqn:Hv; [|exact IH].
  constructor; [|exact IH].
  rewrite string_forall_app, quote_not_control. simpl.
  apply (JSON_value_not_control v sv Hv).
Qed.

Lemma concat_not_control (ps : list string) :
  Forall (fun p => string_forall not_control p = true) ps ->
  string_forall not_control (String.concat "," ps) = true.
Proof.
  induction 1 as [|p ps Hp Hps IH]; [reflexivity|].
  destruct ps as [|q ps]; [exact Hp|].
  change (String.concat "," (p :: q :: ps))
    with (p ++ "," ++ String.concat "," (q :: ps)).
  rewrite !string_forall_app, Hp, IH. reflexivity.
Qed.

Lemma frame_payload_not_control (x : option jsobject) :
  string_forall not_control (frame_payload x) = true.
Proof.
  destruct x as [o|]; [|reflexivity].
  unfold frame_payload, JSON_stringify, JSON_stringify_object. simpl.
  rewrite string_forall_app, (concat_not_control _ (JSON_properties_not_control o)).
  reflexivity.
Qed.

(** X15. Every frame is one line of an event stream: its bytes are those
    of [data: ], then the bytes of the JSON text, none of which is a line
    feed or a carriage return, then two line feeds. *)
Theorem frame_is_one_data_line (newMessage : option jsobject) :
  TextEncoder_encode (messageString newMessage) =
    (TextEncoder_encode "data: "
     ++ TextEncoder_encode (frame_payload newMessage)
     ++ ["010"%byte; "010"%byte])%list /\
  forallb line_byte (TextEncoder_encode (frame_payload newMessage)) = true.
Proof.
  split.
  - unfold messageString. rewrite !encode_app. reflexivity.
  - apply encode_line_bytes. apply frame_payload_not_control.
Qed.

(** ** Frames can be read back *)

(** UTF-8 round trip. *)
Lemma utf8_decode_encode (s : string) :
  Decode.utf8_decode (TextEncoder_encode s) = Some s.
Proof.
  induction s as [|c s IH]; [reflexivity|].
  simpl TextEncoder_encode. rewrite utf8_decode_utf8, IH. reflexivity.
Qed.

Lemma TextEncoder_encode_inj (s t : string) :
  TextEncoder_encode s = TextEncoder_encode t -> s = t.
Proof.
  intros H. apply (f_equal Decode.utf8_decode) in H.
  rewrite !utf8_decode_encode in H. inversion H. reflexivity.
Qed.

Lemma unquote_body_escape (s rest : string) :
  Decode.unquote_body (escape s ++ String dquote rest) = Some (s, rest).
Proof.
  induction s as [|c s IH]; [reflexivity|].
  simpl escape. rewrite append_assoc, unquote_body_escapeChar, IH. reflexivity.
Qed.

Lemma quote_app (s rest : string) :
  quote s ++ rest = String dquote (escape s ++ String dquote rest).
Proof.
  unfold quote. simpl. rewrite append_assoc. reflexivity.
Qed.

(** JSON string literal round trip. *)
Lemma unquote_quote (s rest : string) :
  Decode.unquote (quote s ++ rest) = Some (s, rest).
Proof.
  rewrite quote_app. simpl. apply unquote_body_escape.
Qed.

Lemma to_int_not_nil (n : Z) :
  Z.to_int n <> Decimal.Pos Decimal.Nil /\ Z.to_int n <> Decimal.Neg Decimal.Nil.
Proof.
  destruct n as [|p|p]; simpl; split; try discriminate;
    intros H; inversion H as [H'];
    exact (DecimalPos.Unsigned.to_uint_nonnil p H').
Qed.

Lemma Number_toString_inj (n m : Z) :
  Number_toString n = Number_toString m -> n = m.
Proof.
  unfold Number_toString. intros H.
  apply (f_equal NilZero.int_of_string) in H.
  destruct (to_int_not_nil n) as [Hn1 Hn2].
  destruct (to_int_not_nil m) as [Hm1 Hm2].
  rewrite (NilZero.isi _ Hn1 Hn2), (NilZero.isi _ Hm1 Hm2) in H.
  inversion H as [H']. apply DecimalZ.to_int_inj. exact H'.
Qed.

Lemma string_length_app (a b : string) :
  String.length (a ++ b) = String.length a + String.length b.
Proof. induction a as [|x a IH]; simpl; [reflexivity|]. rewrite IH. reflexivity. Qed.

Lemma append_inv_tail (a b t : string) : a ++ t = b ++ t -> a = b.
Proof.
  revert b. induction a as [|x a IH]; intros [|y b] H; simpl in H.
  - reflexivity.
  - exfalso. apply (f_equal String.length) in H. simpl in H.
    rewrite string_length_app in H. lia.
  - exfalso. apply (f_equal String.length) in H. simpl in H.
    rewrite string_length_app in H. lia.
  - inversion H. f_equal. apply IH. assumption.
Qed.

Lemma string_cons_inv (c : ascii) (a b : string) : String c a = String c b -> a = b.
Proof. intros H. inversion H. reflexivity. Qed.

Lemma escape_dquote_inj (s1 s2 r1 r2 : string) :
  escape s1 ++ String dquote r1 = escape s2 ++ String dquote r2 ->
  s1 = s2 /\ r1 = r2.
Proof.
  intros H. apply (f_equal Decode.unquote_body) in H.
  rewrite !unquote_body_escape in H. inversion H. split; reflexivity.
Qed.

(** The frame of a stored message determines the message. *)
Lemma document_frame_inj (d1 d2 : document) :
  document_frame d1 = document_frame d2 -> d1 = d2.
Proof.
  destruct d1 as [i1 u1 c1 a1 p1 v1], d2 as [i2 u2 c2 a2 p2 v2].
  unfold document_frame. cbn [_id username content createdAt updatedAt __v].
  rewrite !quote_app. cbn -[escape Number_toString].
  intros H.
  repeat first
    [ apply string_cons_inv in H
    | apply escape_dquote_inj in H;
      let E := fresh "E" in destruct H as [E H] ].
  apply append_inv_tail in H. apply Number_toString_inj in H.
  subst. reflexivity.
Qed.

(** X16. Frames lose nothing: two stored messages that differ in any of
    their six fields have different frames, byte for byte. *)
Theorem distinct_messages_distinct_frames (d1 d2 : document)
    (Hdiff : d1 <> d2) :
  TextEncoder_encode (document_frame d1) <> TextEncoder_encode (document_frame d2).
Proof.
  intros H. apply Hdiff. apply document_frame_inj.
  apply TextEncoder_encode_inj. exact H.
Qed.

Lemma distinct_messages_distinct_frames_witness :
  TextEncoder_encode (document_frame (new_message sample_env "alice" "hello")) <>
  TextEncoder_encode (document_frame bob_message).
Proof.
  apply (distinct_messages_distinct_frames
           (new_message sample_env "alice" "hello") bob_message).
  intros H. apply (f_equal username) in H. vm_compute in H. discriminate H.
Defined.

(** ** The module bodies *)

Lemma models_get_registered (name : string) (sch : Schema) (ms : models_t) :
  models_get name ms = None ->
  models_get name (ms ++ [(name, sch)])%list = Some sch.
Proof.
  induction ms as [|[n m] ms IH]; simpl.
  - rewrite String.eqb_refl. reflexivity.
  - destruct (String.eqb name n); [discriminate | exact IH].
Qed.

(** X17. Evaluating message.js never throws, whatever models exist: it
    yields the [Message] model that is registered already, or registers
    one with [messageSchema]; evaluating it again yields the same model
    and leaves the registry as it is, where a bare
    [mongoose.model("Message", messageSchema)] would throw. *)
Theorem Message_module_reloads (ms : models_t) :
  exists (m : Schema) (ms' : models_t),
    Message_module ms = Some (m, ms') /\
    Message_module ms' = Some (m, ms') /\
    mongoose_model "Message" messageSchema ms' = None /\
    (forall m0, models_get "Message" ms = Some m0 -> m = m0 /\ ms' = ms) /\
    (models_get "Message" ms = None ->
     m = messageSchema /\ ms' = (ms ++ [("Message", messageSchema)])%list).
Proof.
  unfold Message_module, mongoose_model.
  destruct (models_get "Message" ms) as [m0|] eqn:Hget.
  - exists m0, ms. rewrite Hget.
    split; [reflexivity|]. split; [reflexivity|]. split; [reflexivity|]. split.
    + intros m1 H. inversion H. split; reflexivity.
    + discriminate.
  - exists messageSchema, (ms ++ [("Message", messageSchema)])%list.
    rewrite (models_get_registered "Message" messageSchema ms Hget).
    split; [reflexivity|]. split; [reflexivity|]. split; [reflexivity|]. split.
    + discriminate.
    + intros _. split; reflexivity.
Qed.

(** What the handlers leave of mongoose is what [connectDB] left. *)
Lemma POST_mongoose (e : env) (body : jsobject) (w : world) :
  mongoose (snd (POST e body w)) = mongoose (snd (connectDB e w)).
Proof.
  destruct (connectDB_cases e w) as (w1 & [Hcon|Hcon] & _ & _).
  - rewrite (POST_connected e body w w1 Hcon), Hcon.
    destruct (negb (truthy (get "username" body)) ||
              negb (truthy (get "content" body))); [reflexivity|].
    unfold bind.
    destruct (Message_create_cases e
                [("username", get "username" body); ("content", get "content" body)]
                w1) as [(d & -> & _)|[(-> & _)|(p & ps & -> & _)]]; reflexivity.
  - unfold POST, bind. rewrite Hcon. reflexivity.
Qed.

(** X18. db.js loads only with a [MONGO_URI] that is set and not empty,
    and then [mongoose.connect] is never called with an empty URI: if
    every URI it was called with so far is non-empty, so it is after
    [connectDB], after [POST] and after [GET]. *)
Theorem connect_uri_never_empty
    (variable : option string) (e : env) (body : jsobject) (w : world)
    (Hload : db_module variable = inr (MONGO_URI e))
    (Hinv : connects_nonempty w) :
  variable = Some (MONGO_URI e) /\ MONGO_URI e <> EmptyString /\
  connects_nonempty (snd (connectDB e w)) /\
  connects_nonempty (snd (POST e body w)) /\
  connects_nonempty (snd (GET e w)).
Proof.
  assert (Hv : variable = Some (MONGO_URI e) /\ MONGO_URI e <> EmptyString).
  { unfold db_module in Hload. destruct variable as [uri|]; simpl in Hload.
    - destruct (String.eqb_spec uri EmptyString) as [->|Hne]; simpl in Hload;
        [discriminate Hload|].
      inversion Hload; subst. split; [reflexivity | assumption].
    - discriminate Hload. }
  destruct Hv as [Hv Hne].
  assert (Hdb : connects_nonempty (snd (connectDB e w))).
  { unfold connects_nonempty in *.
    destruct (Z.leb_spec 1 (readyState (mongoose w))) as [Hr|Hr].
    - rewrite (connectDB_connected e w Hr). exact Hinv.
    - rewrite (connectDB_disconnected e w Hr).
      destruct (connect_ok e); simpl; apply Forall_app; split; try assumption;
        constructor; try assumption; constructor. }
  split; [exact Hv|]. split; [exact Hne|]. split; [exact Hdb|]. split.
  - unfold connects_nonempty. rewrite POST_mongoose. exact Hdb.
  - unfold connects_nonempty in *. unfold GET, bind, connectDB_unawaited.
    destruct (1 <=? readyState (mongoose w))%Z; simpl; [exact Hinv|].
    apply Forall_app. split; [exact Hinv|]. constructor; [exact Hne | constructor].
Qed.

Lemma connect_uri_never_empty_witness :
  Some "mongodb://localhost/chat" = Some (MONGO_URI sample_env) /\
  MONGO_URI sample_env <> EmptyString /\
  connects_nonempty (snd (connectDB sample_env fresh_world)) /\
  connects_nonempty (snd (POST sample_env alice_hello fresh_world)) /\
  connects_nonempty (snd (GET sample_env fresh_world)).
Proof.
  apply (connect_uri_never_empty (Some "mongodb://localhost/chat")
           sample_env alice_hello fresh_world).
  - reflexivity.
  - constructor.
Defined.

(** ** Values that are not strings *)

Lemma uint_no_white_space (d : Decimal.uint) :
  string_forall (fun c => negb (isWhiteSpace c)) (NilEmpty.string_of_uint d) = true.
Proof. induction d; simpl; try reflexivity; assumption. Qed.

(** The decimal text of an integer is not empty and holds no white
    space. *)
Lemma Number_toString_no_white_space (n : Z) :
  Number_toString n <> EmptyString /\
  string_forall (fun c => negb (isWhiteSpace c)) (Number_toString n) = true.
Proof.
  unfold Number_toString, NilZero.string_of_int, NilZero.string_of_uint.
  destruct (Z.to_int n) as [d|d]; destruct d; simpl;
    (split; [discriminate | try reflexivity; apply uint_no_white_space]).
Qed.

Lemma no_white_space_ends (s : string) :
  string_forall (fun c => negb (isWhiteSpace c)) s = true ->
  notWhiteSpace (firstChar s) = true /\ notWhiteSpace (lastChar s) = true.
Proof.
  induction s as [|c s IH]; [split; reflexivity|].
  simpl string_forall. intros H. apply andb_true_iff in H. destruct H as [Hc Hs].
  split; [exact Hc|].
  destruct s as [|c' s']; [exact Hc|].
  apply (IH Hs).
Qed.

(** X19. [POST] does not check that the fields are strings.  With the
    store available and accepting the insert, a non-zero integer
    [username] passes the guard, mongoose's cast makes it its decimal
    text, and the message is stored under that text. *)
Theorem POST_casts_number (e : env) (body : jsobject) (w : world) (n : Z) (c : string)
    (Hdb : db_available e w)
    (Hins : insert_ok e = true)
    (Hu : get "username" body = JNum n)
    (Hn : n <> 0%Z)
    (Hsafe : (Z.abs n <= 9007199254740991)%Z)
    (Hc : get "content" body = JStr c)
    (Htc : trim c <> EmptyString) :
  fst (POST e body w) =
    Returned (NextResponse_json
                [("success", JBool true); ("messageId", JStr (ObjectId e))] 201) /\
  collection (snd (POST e body w)) =
    (collection w ++ [ {| _id := ObjectId e;
                          username := Number_toString n;
                          content := trim c;
                          createdAt := Date_now e;
                          updatedAt := Date_now e;
                          __v := 0 |} ])%list.
Proof.
  destruct (connectDB_available e w Hdb) as (w1 & Hcon & Hcol & _ & _).
  rewrite (POST_connected e body w w1 Hcon), Hu, Hc.
  assert (Hnc : (c =? EmptyString) = false).
  { apply String.eqb_neq. intros ->. apply Htc. reflexivity. }
  apply Z.eqb_neq in Hn.
  unfold truthy. rewrite Hn, Hnc. cbn [negb orb].
  destruct (Number_toString_no_white_space n) as [Hne Hws].
  destruct (no_white_space_ends _ Hws) as [Hfirst Hlast].
  assert (Htn : trim (Number_toString n) = Number_toString n)
    by (apply trim_fixed; assumption).
  unfold bind, Message_create, invalid_paths, path_value.
  cbn -[trim Number_toString]. rewrite Htn.
  destruct (Number_toString n) as [|a t] eqn:En; [contradiction|].
  destruct (trim c) as [|a' t'] eqn:Ec; [contradiction|].
  cbn -[trim Number_toString]. unfold insertOne. rewrite Hins. simpl.
  rewrite Hcol. split; reflexivity.
Qed.

Lemma POST_casts_number_witness :
  fst (POST sample_env numeric_username fresh_world) =
    Returned (NextResponse_json
                [("success", JBool true);
                 ("messageId", JStr (ObjectId sample_env))] 201) /\
  collection (snd (POST sample_env numeric_username fresh_world)) =
    (collection fresh_world ++
       [ {| _id := ObjectId sample_env;
            username := Number_toString 42;
            content := trim "hi";
            createdAt := Date_now sample_env;
            updatedAt := Date_now sample_env;
            __v := 0 |} ])%list.
Proof.
  apply (POST_casts_number sample_env numeric_username fresh_world 42 "hi").
  - right. reflexivity.
  - reflexivity.
  - reflexivity.
  - discriminate.
  - simpl. lia.
  - reflexivity.
  - vm_compute. discriminate.
Defined.

(** ** Calls one after the other *)

(** A valid submission, with the store available and accepting the
    insert: the response and the world it leaves. *)
Lemma POST_valid_world (e : env) (body : jsobject) (w : world) (u c : string) :
  db_available e w -> insert_ok e = true ->
  get "username" body = JStr u -> get "content" body = JStr c ->
  trim u <> EmptyString -> trim c <> EmptyString ->
  exists w',
    POST e body w =
      (Returned (NextResponse_json
                   [("success", JBool true); ("messageId", JStr (ObjectId e))] 201),
       w') /\
    collection w' = (collection w ++ [new_message e u c])%list /\
    feed w' = (feed w ++ [insert_event (new_message e u c)])%list /\
    (1 <= readyState (mongoose w'))%Z /\
    ((1 <= readyState (mongoose w))%Z -> mongoose w' = mongoose w).
Proof.
  intros Hdb Hins Hu Hc Htu Htc.
  destruct (POST_valid e body w u c Hdb Hu Hc Htu Htc) as (w1 & Hcol & Hfeed & HP).
  destruct (connectDB_available e w Hdb) as (w1' & Hcon & _ & _ & Hready).
  assert (Hm : mongoose (snd (POST e body w)) = mongoose w1').
  { rewrite POST_mongoose, Hcon. reflexivity. }
  revert Hm. rewrite HP. unfold bind, insertOne. rewrite Hins. simpl.
  intros Hm. eexists. split; [reflexivity|]. simpl.
  rewrite Hcol, Hfeed, Hm. repeat split; try assumption.
  intros Hr. rewrite (connectDB_connected e w Hr) in Hcon.
  inversion Hcon. reflexivity.
Qed.

(** X20. Two valid submissions one after the other, the store being
    available for the first: both are answered 201, the second call finds
    mongoose connected and makes no connect call of its own, the feed
    gets the two insert events in the order of the submissions, and an
    open connection that receives them sends the two frames in that
    order. *)
Theorem two_submissions_in_order
    (e1 e2 : env) (b1 b2 : jsobject) (w : world) (u1 c1 u2 c2 : string)
    (s : connection)
    (Hdb : db_available e1 w)
    (Hins1 : insert_ok e1 = true)
    (Hins2 : insert_ok e2 = true)
    (Hu1 : get "username" b1 = JStr u1) (Hc1 : get "content" b1 = JStr c1)
    (Hu2 : get "username" b2 = JStr u2) (Hc2 : get "content" b2 = JStr c2)
    (Htu1 : trim u1 <> EmptyString) (Htc1 : trim c1 <> EmptyString)
    (Htu2 : trim u2 <> EmptyString) (Htc2 : trim c2 <> EmptyString)
    (Hopen : Streams.closeRequested (controller s) = false) :
  exists w1 w2 r1 r2,
    POST e1 b1 w = (Returned r1, w1) /\ json_status r1 = 201%Z /\
    POST e2 b2 w1 = (Returned r2, w2) /\ json_status r2 = 201%Z /\
    mongoose w2 = mongoose w1 /\
    feed w2 = (feed w ++ [insert_event (new_message e1 u1 c1);
                          insert_event (new_message e2 u2 c2)])%list /\
    sent (run [Change (insert_event (new_message e1 u1 c1));
               Change (insert_event (new_message e2 u2 c2))] s) =
      (sent s ++ [TextEncoder_encode (document_frame (new_message e1 u1 c1));
                  TextEncoder_encode (document_frame (new_message e2 u2 c2))])%list.
Proof.
  destruct (POST_valid_world e1 b1 w u1 c1 Hdb Hins1 Hu1 Hc1 Htu1 Htc1)
    as (w1 & HP1 & _ & Hf1 & Hr1 & _).
  assert (Hdb2 : db_available e2 w1) by (left; exact Hr1).
  destruct (POST_valid_world e2 b2 w1 u2 c2 Hdb2 Hins2 Hu2 Hc2 Htu2 Htc2)
    as (w2 & HP2 & _ & Hf2 & _ & Hm2).
  exists w1, w2. eexists. eexists.
  split; [exact HP1|]. split; [reflexivity|].
  split; [exact HP2|]. split; [reflexivity|].
  split; [exact (Hm2 Hr1)|]. split.
  - rewrite Hf2, Hf1, <- app_assoc. reflexivity.
  - unfold run. simpl fold_left.
    destruct (step_insert_open (insert_event (new_message e1 u1 c1)) s
                (eq_refl _) Hopen) as [Ho1 Hs1].
    destruct (step_insert_open (insert_event (new_message e2 u2 c2)) _
                (eq_refl _) Ho1) as [_ Hs2].
    rewrite Hs2, Hs1, <- app_assoc. unfold frame_of. simpl fullDocument.
    rewrite !stored_document_frame. reflexivity.
Qed.

Lemma two_submissions_in_order_witness :
  exists w1 w2 r1 r2,
    POST sample_env alice_hello fresh_world = (Returned r1, w1) /\
    json_status r1 = 201%Z /\
    POST later_env padded_bob w1 = (Returned r2, w2) /\
    json_status r2 = 201%Z /\
    mongoose w2 = mongoose w1 /\
    feed w2 =
      (feed fresh_world ++
         [insert_event (new_message sample_env "alice" "hello");
          insert_event (new_message later_env " bob " "hi there")])%list /\
    sent (run [Change (insert_event (new_message sample_env "alice" "hello"));
               Change (insert_event (new_message later_env " bob " "hi there"))]
              start) =
      (sent start ++
         [TextEncoder_encode (document_frame (new_message sample_env "alice" "hello"));
          TextEncoder_encode
            (document_frame (new_message later_env " bob " "hi there"))])%list.
Proof.
  apply (two_submissions_in_order sample_env later_env alice_hello padded_bob
           fresh_world "alice" "hello" " bob " "hi there" start);
    try reflexivity; try (vm_compute; discriminate).
  right. reflexivity.
Defined.

(** X21. Any number of [connectDB] calls from a disconnected state, the
    server accepting the first connection: every call returns,
    [mongoose.connect] is called once in all, by the first call, and
    mongoose stays connected; what the server would answer to later
    connection attempts does not matter, none is made. *)
Theorem connectDB_connects_once (e : env) (es : list env) (w : world)
    (Hdown : (readyState (mongoose w) < 1)%Z)
    (Hok : connect_ok e = true) :
  fst (connectDB_times (e :: es) w) = Returned tt /\
  readyState (mongoose (snd (connectDB_times (e :: es) w))) = 1%Z /\
  connects (mongoose (snd (connectDB_times (e :: es) w))) =
    (connects (mongoose w) ++ [MONGO_URI e])%list /\
  collection (snd (connectDB_times (e :: es) w)) = collection w /\
  feed (snd (connectDB_times (e :: es) w)) = feed w.
Proof.
  simpl connectDB_times. unfold bind.
  rewrite (connectDB_disconnected e w Hdown), Hok. cbv beta iota.
  match goal with
  | |- context [connectDB_times es ?w1] =>
      destruct (connectDB_times_connected es w1) as (Hr & Hm & Hc & Hf);
        [simpl; lia |]; rewrite Hr, Hm, Hc, Hf
  end.
  repeat split.
Qed.

Lemma connectDB_connects_once_witness :
  fst (connectDB_times [sample_env; unreachable_env; later_env] fresh_world) =
    Returned tt /\
  readyState (mongoose (snd (connectDB_times
                               [sample_env; unreachable_env; later_env]
                               fresh_world))) = 1%Z /\
  connects (mongoose (snd (connectDB_times
                             [sample_env; unreachable_env; later_env]
                             fresh_world))) =
    (connects (mongoose fresh_world) ++ [MONGO_URI sample_env])%list /\
  collection (snd (connectDB_times [sample_env; unreachable_env; later_env]
                                   fresh_world)) = collection fresh_world /\
  feed (snd (connectDB_times [sample_env; unreachable_env; later_env]
                             fresh_world)) = feed fresh_world.
Proof.
  apply (connectDB_connects_once sample_env [unreachable_env; later_env] fresh_world).
  - simpl. lia.
  - reflexivity.
Defined.
